(** * Password generator: a shallow embedding of [password-generator.py]

    The Python class [PasswordGenerator] is embedded method by method.
    Python [int]s are [Z]; a Python character (a [str] of length one) is an
    [ascii] and a [str] is a [string]; the calls to [secrets.choice] are
    threaded through an explicit random source, and [raise] is an outcome of
    the computation. *)

From Stdlib Require Import ZArith List Bool String Ascii Lia Permutation.
From Stdlib Require Import DecimalString.
Import ListNotations.

Open Scope string_scope.
Open Scope Z_scope.

(** ** Exceptions, the random source, and the monad of the methods *)

Module Py.

(** The three exception classes that can leave the methods. *)
Inductive exn : Type :=
| ValueError (msg : string)
| RuntimeError (msg : string)
| IndexError (msg : string).

Inductive outcome (A : Type) : Type :=
| Return (a : A)
| Raise (e : exn).
Arguments Return {A} a.
Arguments Raise {A} e.

(** The system random source behind [secrets]: an unknown stream of
    naturals, of which [drawn] have been consumed so far. *)
Record rng : Type := mkRng { entropy : nat -> nat; drawn : nat }.

(** The source after [k] further draws. *)
Definition skip (k : nat) (s : rng) : rng :=
  mkRng (entropy s) (drawn s + k).

Definition M (A : Type) : Type := rng -> outcome A * rng.

Definition ret {A} (a : A) : M A := fun s => (Return a, s).

Definition raise {A} (e : exn) : M A := fun s => (Raise e, s).

Definition bind {A B} (m : M A) (f : A -> M B) : M B :=
  fun s =>
    match m s with
    | (Return a, s') => f a s'
    | (Raise e, s') => (Raise e, s')
    end.

(** [[body for _ in range(n)]]: the body is run [n] times, in order. *)
Fixpoint comprehension {A} (n : nat) (body : M A) : M (list A) :=
  match n with
  | O => ret []
  | S n' =>
      bind body (fun x =>
      bind (comprehension n' body) (fun xs =>
      ret (x :: xs)))
  end.

(** [for x in l: body x]. *)
Fixpoint for_each {A} (l : list A) (body : A -> M unit) : M unit :=
  match l with
  | [] => ret tt
  | x :: rest => bind (body x) (fun _ => for_each rest body)
  end.

(** [range(n)] has [max(n, 0)] elements. *)
Definition range_len (n : Z) : nat := Z.to_nat n.

(** [any(l)] on a list of booleans. *)
Definition any (l : list bool) : bool := existsb (fun b => b) l.

(** [any(f(c) for c in s)]. *)
Fixpoint any_of (f : ascii -> bool) (s : string) : bool :=
  match s with
  | EmptyString => false
  | String c s' => f c || any_of f s'
  end.

(** [c in s] for a character [c]. *)
Fixpoint contains (s : string) (c : ascii) : bool :=
  match s with
  | EmptyString => false
  | String d s' => Ascii.eqb c d || contains s' c
  end.

(** [s.replace(old, new)] for a one-character [old]. *)
Fixpoint replace (s : string) (old : ascii) (new : string) : string :=
  match s with
  | EmptyString => EmptyString
  | String c s' =>
      if Ascii.eqb c old then new ++ replace s' old new
      else String c (replace s' old new)
  end.

(** [''.join(l)] for a list of strings, and for a list of characters. *)
Definition join (l : list string) : string := String.concat "" l.

Definition join_chars (l : list ascii) : string := string_of_list_ascii l.

(** [len(s)]. *)
Definition len (s : string) : Z := Z.of_nat (String.length s).

End Py.

Import Py.

Declare Scope py_scope.
Delimit Scope py_scope with py.
Notation "x <- m ;; k" := (bind m (fun x => k))
  (at level 61, m at next level, right associativity) : py_scope.
Notation "m ;;; k" := (bind m (fun _ => k))
  (at level 61, right associativity) : py_scope.
Open Scope py_scope.

(** ** The constants of the [string] module *)

Module PyString.

Definition ascii_lowercase : string := "abcdefghijklmnopqrstuvwxyz".
Definition ascii_uppercase : string := "ABCDEFGHIJKLMNOPQRSTUVWXYZ".
Definition digits : string := "0123456789".
(** [!], the double quote (code 34), then [#$%&'()*+,-./:;<=>?@[\]^_`{|}~]. *)
Definition punctuation : string :=
  String "!" (String (ascii_of_nat 34) "#$%&'()*+,-./:;<=>?@[\]^_`{|}~").

End PyString.

(** ** [secrets.choice] *)

Module Secrets.

(** One draw below [n]; every value below [n] is a possible result. *)
Definition randbelow (n : nat) : M nat :=
  fun s => (Return (entropy s (drawn s) mod n)%nat, skip 1 s).

(** [secrets.choice(seq)]: [IndexError] on an empty sequence, else the
    element at a drawn index. *)
Definition choice (seq : string) : M ascii :=
  if (String.length seq =? 0)%nat
  then raise (IndexError "Cannot choose from an empty sequence")
  else
    i <- randbelow (String.length seq) ;;
    match String.get i seq with
    | Some c => ret c
    | None => raise (IndexError "string index out of range")
    end.

End Secrets.

(** ** The class [PasswordGenerator] *)

Module PasswordGenerator.

(** The keys of [self.character_sets]. *)
Inductive CharacterClass : Type := Lowercase | Uppercase | Digits | Symbols.

(** [self.character_sets], set once in [__init__] and never written again. *)
Definition character_sets (k : CharacterClass) : string :=
  match k with
  | Lowercase => PyString.ascii_lowercase
  | Uppercase => PyString.ascii_uppercase
  | Digits => PyString.digits
  | Symbols => PyString.punctuation
  end.

(** The keyword arguments of [generate_password]. *)
Record request : Type := mkRequest {
  length : Z;
  use_lowercase : bool;
  use_uppercase : bool;
  use_digits : bool;
  use_symbols : bool;
  exclude_similar : bool
}.

(** The defaults of the signature of [generate_password]. *)
Definition default_request : request :=
  mkRequest 16 true true true true true.

Definition _validate_parameters
    (length : Z) (use_lowercase use_uppercase use_digits use_symbols : bool)
    : M unit :=
  if length <? 8
  then raise (ValueError "Password length must be at least 8 characters")
  else if length >? 128
  then raise (ValueError "Password length cannot exceed 128 characters")
  else if negb (any [use_lowercase; use_uppercase; use_digits; use_symbols])
  then raise (ValueError "At least one character set must be selected")
  else ret tt.

Definition _build_character_pool
    (use_lowercase use_uppercase use_digits use_symbols exclude_similar : bool)
    : string :=
  let char_pool : list string := [] in
  let char_pool :=
    if use_lowercase then
      let lowercase_chars := character_sets Lowercase in
      let lowercase_chars :=
        if exclude_similar
        then replace (replace lowercase_chars "l" "") "o" ""
        else lowercase_chars in
      (char_pool ++ [lowercase_chars])%list
    else char_pool in
  let char_pool :=
    if use_uppercase then
      let uppercase_chars := character_sets Uppercase in
      let uppercase_chars :=
        if exclude_similar
        then replace (replace uppercase_chars "I" "") "O" ""
        else uppercase_chars in
      (char_pool ++ [uppercase_chars])%list
    else char_pool in
  let char_pool :=
    if use_digits then
      let digit_chars := character_sets Digits in
      let digit_chars :=
        if exclude_similar
        then replace (replace digit_chars "0" "") "1" ""
        else digit_chars in
      (char_pool ++ [digit_chars])%list
    else char_pool in
  let char_pool :=
    if use_symbols then (char_pool ++ [character_sets Symbols])%list
    else char_pool in
  join char_pool.

Definition _generate_secure_password (char_pool : string) (length : Z)
    : M string :=
  chars <- comprehension (range_len length) (Secrets.choice char_pool) ;;
  ret (join_chars chars).

(** The list [requirements] of [_ensure_password_requirements]. *)
Definition requirements
    (use_lowercase use_uppercase use_digits use_symbols : bool)
    : list (bool * string * string) :=
  [ (use_lowercase, PyString.ascii_lowercase, "lowercase");
    (use_uppercase, PyString.ascii_uppercase, "uppercase");
    (use_digits, PyString.digits, "digits");
    (use_symbols, PyString.punctuation, "symbols") ].

Definition _ensure_password_requirements
    (password : string)
    (use_lowercase use_uppercase use_digits use_symbols : bool)
    : M unit :=
  for_each (requirements use_lowercase use_uppercase use_digits use_symbols)
    (fun '(required, char_set, name) =>
       if required && negb (any_of (contains char_set) password)
       then raise (RuntimeError
                     ("Failed to generate password with " ++ name
                      ++ " characters"))
       else ret tt).

Definition generate_password (r : request) : M string :=
  _validate_parameters (length r) (use_lowercase r) (use_uppercase r)
                       (use_digits r) (use_symbols r) ;;;
  let char_pool :=
    _build_character_pool (use_lowercase r) (use_uppercase r)
                          (use_digits r) (use_symbols r)
                          (exclude_similar r) in
  password <- _generate_secure_password char_pool (length r) ;;
  _ensure_password_requirements password (use_lowercase r) (use_uppercase r)
                                (use_digits r) (use_symbols r) ;;;
  ret password.

Definition generate_multiple_passwords (count : Z) (kwargs : request)
    : M (list string) :=
  comprehension (range_len count) (generate_password kwargs).

(** The dictionary returned by [estimate_password_strength]; its keys are
    fixed, and [report_length] is the key ['length']. *)
Record StrengthReport : Type := mkReport {
  score : Z;
  strength : string;
  report_length : Z;
  has_lowercase : bool;
  has_uppercase : bool;
  has_digits : bool;
  has_symbols : bool
}.

Definition estimate_password_strength (password : string)
    : M StrengthReport :=
  let length := len password in
  let has_lower := any_of (contains PyString.ascii_lowercase) password in
  let has_upper := any_of (contains PyString.ascii_uppercase) password in
  let has_digit := any_of (contains PyString.digits) password in
  let has_symbol := any_of (contains PyString.punctuation) password in
  let score := 0 in
  let score := score + Z.min (length * 4) 40 in
  let score := score + (if has_lower then 15 else 0) in
  let score := score + (if has_upper then 15 else 0) in
  let score := score + (if has_digit then 15 else 0) in
  let score := score + (if has_symbol then 15 else 0) in
  let strength :=
    if score >=? 80 then "Very Strong"
    else if score >=? 60 then "Strong"
    else if score >=? 40 then "Moderate"
    else if score >=? 20 then "Weak"
    else "Very Weak" in
  ret (mkReport score strength length
                has_lower has_upper has_digit has_symbol).

End PasswordGenerator.

Import PasswordGenerator.

(** ** The script around the class: standard output and [main] *)

Module Script.

(** What [main] acts on: the random source and the text written to standard
    output so far. *)
Record world : Type := mkWorld { random : rng; stdout : string }.

Definition IO (A : Type) : Type := world -> outcome A * world.

Definition io_ret {A} (a : A) : IO A := fun w => (Return a, w).

Definition io_bind {A B} (m : IO A) (f : A -> IO B) : IO B :=
  fun w =>
    match m w with
    | (Return a, w') => f a w'
    | (Raise e, w') => (Raise e, w')
    end.

(** A method of the generator, run on the random source of the world; it
    writes nothing. *)
Definition call {A} (m : M A) : IO A :=
  fun w =>
    match m (random w) with
    | (o, s') => (o, mkWorld s' (stdout w))
    end.

(** The line feed, character 10. *)
Definition newline : string := String (ascii_of_nat 10) "".

(** [print] of some objects: the objects separated by a space, then a line
    feed. *)
Definition print (objects : list string) : IO unit :=
  fun w =>
    (Return tt,
     mkWorld (random w) (stdout w ++ String.concat " " objects ++ newline)).

(** [str(n)] of an [int], as an f-string formats it. *)
Definition str (n : Z) : string := NilZero.string_of_int (Z.to_int n).

(** [enumerate(l, start)]. *)
Fixpoint enumerate {A} (l : list A) (start : Z) : list (Z * A) :=
  match l with
  | [] => []
  | x :: l' => (start, x) :: enumerate l' (start + 1)
  end.

(** [for x in l: body x], with output. *)
Fixpoint io_for_each {A} (l : list A) (body : A -> IO unit) : IO unit :=
  match l with
  | [] => io_ret tt
  | x :: rest => io_bind (body x) (fun _ => io_for_each rest body)
  end.

(** [main]; the dictionary it calls [strength] is [report] here, and the
    batch leaves [exclude_similar] at its default. *)
Definition main : IO unit :=
  io_bind (call (generate_password
                   (mkRequest 20 true true true true true))) (fun password =>
  io_bind (print ["Generated Password:"; password]) (fun _ =>
  io_bind (call (estimate_password_strength password)) (fun report =>
  io_bind (print [newline ++ "Password Strength: " ++ strength report
                  ++ " (" ++ str (score report) ++ "/100)"]) (fun _ =>
  io_bind (print ["Length: " ++ str (report_length report)
                  ++ " characters"]) (fun _ =>
  io_bind (print [newline ++ "Multiple passwords:"]) (fun _ =>
  io_bind (call (generate_multiple_passwords 3
                   (mkRequest 12 true true true false
                              (exclude_similar default_request))))
          (fun passwords =>
  io_for_each (enumerate passwords 1)
    (fun '(i, pwd) => print [str i ++ ". " ++ pwd])))))))).

End Script.

Import Script.

(** ** Requests, as the specification speaks of them *)

Definition enabled (r : request) (k : CharacterClass) : bool :=
  match k with
  | Lowercase => use_lowercase r
  | Uppercase => use_uppercase r
  | Digits => use_digits r
  | Symbols => use_symbols r
  end.

Definition no_class_enabled (r : request) : Prop :=
  forall k, enabled r k = false.

Definition valid_request (r : request) : Prop :=
  8 <= length r <= 128 /\ exists k, enabled r k = true.

(** The pool of a request. *)
Definition pool_of (r : request) : string :=
  _build_character_pool (use_lowercase r) (use_uppercase r) (use_digits r)
                        (use_symbols r) (exclude_similar r).

(** The characters that [exclude_similar] is about. *)
Definition similar_chars : list ascii :=
  ["l"; "o"; "I"; "O"; "0"; "1"]%char.

(** The entropy stream 0, 24, 48, ... and the one that is 0 everywhere. *)
Definition stride24 : rng := mkRng (fun i => (24 * i)%nat) 0.
Definition all_zero : rng := mkRng (fun _ => 0%nat) 0.

(** The entropy stream that is 0 for the first eight draws and 24 * i
    afterwards. *)
Definition zeros_then_stride : rng :=
  mkRng (fun i => if (i <? 8)%nat then 0%nat else (24 * i)%nat) 0.

(** The request of length [n] with every class and [exclude_similar] on. *)
Definition all_classes (n : Z) : request :=
  mkRequest n true true true true true.

(** A password meets the requirements of a request when every enabled class
    has one of its characters in it. *)
Definition has_class (password : string) (k : CharacterClass) : bool :=
  any_of (contains (character_sets k)) password.

Definition meets (r : request) (password : string) : bool :=
  forallb (fun k => implb (enabled r k) (has_class password k))
          [Lowercase; Uppercase; Digits; Symbols].

(** The flag of a report for a class, and the number of flags set. *)
Definition report_has (rep : StrengthReport) (k : CharacterClass) : bool :=
  match k with
  | Lowercase => has_lowercase rep
  | Uppercase => has_uppercase rep
  | Digits => has_digits rep
  | Symbols => has_symbols rep
  end.

Definition classes_present (rep : StrengthReport) : Z :=
  Z.b2z (has_lowercase rep) + Z.b2z (has_uppercase rep)
  + Z.b2z (has_digits rep) + Z.b2z (has_symbols rep).

(** The classes in the order of the list [requirements], the name each has
    there, and its place in that order. *)
Definition classes : list CharacterClass :=
  [Lowercase; Uppercase; Digits; Symbols].

Definition class_name (k : CharacterClass) : string :=
  match k with
  | Lowercase => "lowercase"
  | Uppercase => "uppercase"
  | Digits => "digits"
  | Symbols => "symbols"
  end.

Definition class_rank (k : CharacterClass) : nat :=
  match k with
  | Lowercase => 0
  | Uppercase => 1
  | Digits => 2
  | Symbols => 3
  end.

(** The number of classes a request enables. *)
Definition enabled_count (r : request) : Z :=
  Z.b2z (use_lowercase r) + Z.b2z (use_uppercase r)
  + Z.b2z (use_digits r) + Z.b2z (use_symbols r).

(** No character occurs twice in the string. *)
Fixpoint distinct (s : string) : bool :=
  match s with
  | EmptyString => true
  | String c s' => negb (contains s' c) && distinct s'
  end.

(** The place of the first occurrence of [c] in [s]. *)
Fixpoint index_of (c : ascii) (s : string) : nat :=
  match s with
  | EmptyString => 0
  | String d s' => if Ascii.eqb c d then 0 else S (index_of c s')
  end.

(** An entropy stream that, read from place [start] on, picks the
    characters of [target] out of [pool] one after the other. *)
Definition entropy_for (pool target : string) (start : nat) : nat -> nat :=
  fun j =>
    match String.get (j - start) target with
    | Some c => index_of c pool
    | None => 0%nat
    end.

(** The entropy stream that counts 0, 1, 2, ... *)
Definition counting : rng := mkRng (fun i => i) 0.

(** What [main] has written once the strength of [password] is reported,
    and what it writes for the batch [p1], [p2], [p3]. *)
Definition main_report (password : string) : string :=
  "Generated Password: " ++ password ++ newline
  ++ newline ++ "Password Strength: Very Strong (100/100)" ++ newline
  ++ "Length: 20 characters" ++ newline
  ++ newline ++ "Multiple passwords:" ++ newline.

Definition main_batch (p1 p2 p3 : string) : string :=
  "1. " ++ p1 ++ newline ++ "2. " ++ p2 ++ newline ++ "3. " ++ p3 ++ newline.

(** The requests of [main]. *)
Definition main_request : request := mkRequest 20 true true true true true.
Definition main_batch_request : request :=
  mkRequest 12 true true true false true.

(** The 256 characters. *)
Definition all_ascii : list ascii := map ascii_of_nat (seq 0 256).

(** What [pool_of] holds, said class by class: a character of an enabled
    class, and not a similar one when [exclude_similar] is set. *)
Definition in_pool (r : request) (c : ascii) : bool :=
  existsb (fun k => enabled r k && contains (character_sets k) c) classes
  && (negb (exclude_similar r) || negb (existsb (Ascii.eqb c) similar_chars)).

(** ** Strings and the random source *)

Lemma skip_0 (s : rng) : skip 0 s = s.
Proof.
  destruct s as [e d]. unfold skip. simpl. now rewrite Nat.add_0_r.
Qed.

Lemma skip_skip (a b : nat) (s : rng) : skip a (skip b s) = skip (b + a) s.
Proof.
  unfold skip. simpl. now rewrite Nat.add_assoc.
Qed.

Lemma get_below (s : string) :
  forall i, (i < String.length s)%nat -> exists c, String.get i s = Some c.
Proof.
  induction s as [|d s IH]; intros i Hi; simpl in *.
  - lia.
  - destruct i as [|i]; [now exists d|]. apply IH. lia.
Qed.

Lemma get_contains (s : string) :
  forall i c, String.get i s = Some c -> contains s c = true.
Proof.
  induction s as [|d s IH]; intros i c H; simpl in *.
  - discriminate.
  - destruct i as [|i].
    + injection H as ->. now rewrite Ascii.eqb_refl.
    + rewrite (IH _ _ H). apply orb_true_r.
Qed.

Lemma contains_In (s : string) (c : ascii) :
  contains s c = true <-> In c (list_ascii_of_string s).
Proof.
  induction s as [|d s IH]; simpl.
  - split; [discriminate | tauto].
  - rewrite orb_true_iff, IH, Ascii.eqb_eq. intuition congruence.
Qed.

Lemma any_of_exists (f : ascii -> bool) (s : string) :
  any_of f s = true <-> exists c, In c (list_ascii_of_string s) /\ f c = true.
Proof.
  induction s as [|d s IH]; simpl.
  - split; [discriminate | now intros (c & [] & _)].
  - rewrite orb_true_iff, IH. split.
    + intros [H | (c & Hc & Hf)]; [exists d | exists c]; auto.
    + intros (c & [<- | Hc] & Hf); [now left | right; now exists c].
Qed.

Lemma has_class_exists (password : string) (k : CharacterClass) :
  has_class password k = true <->
  exists c, In c (list_ascii_of_string password)
            /\ In c (list_ascii_of_string (character_sets k)).
Proof.
  unfold has_class. rewrite any_of_exists.
  split; intros (c & Hc & H); exists c; split; auto; now apply contains_In.
Qed.

Lemma length_join_chars (cs : list ascii) :
  String.length (join_chars cs) = List.length cs.
Proof.
  induction cs as [|c cs IH]; simpl; congruence.
Qed.

Lemma chars_join_chars (cs : list ascii) :
  list_ascii_of_string (join_chars cs) = cs.
Proof.
  apply list_ascii_of_string_of_list_ascii.
Qed.

(** ** Drawing from a non-empty pool *)

Section Draw.

Variable pool : string.
Hypothesis pool_nonempty : String.length pool <> 0%nat.

Let index (s : rng) (i : nat) : nat :=
  (entropy s (drawn s + i) mod String.length pool)%nat.

Lemma choice_draws (s : rng) :
  exists c, Secrets.choice pool s = (Return c, skip 1 s)
            /\ String.get (index s 0) pool = Some c.
Proof.
  unfold Secrets.choice, index.
  destruct (Nat.eqb_spec (String.length pool) 0) as [E | _]; [contradiction|].
  rewrite Nat.add_0_r.
  destruct (get_below pool (entropy s (drawn s) mod String.length pool))
    as [c Hc]; [now apply Nat.mod_upper_bound|].
  exists c. split; [|assumption].
  unfold bind, Secrets.randbelow. now rewrite Hc.
Qed.

Lemma comprehension_choice (n : nat) :
  forall s, exists cs,
    comprehension n (Secrets.choice pool) s = (Return cs, skip n s)
    /\ List.length cs = n
    /\ forall i, (i < n)%nat ->
         nth_error cs i = String.get (index s i) pool.
Proof.
  induction n as [|n IH]; intros s.
  - exists []. simpl. unfold ret. rewrite skip_0.
    repeat split; auto. intros i Hi. lia.
  - destruct (choice_draws s) as (c & Hc & Hget).
    destruct (IH (skip 1 s)) as (cs & Hcs & Hlen & Hnth).
    exists (c :: cs). simpl. unfold bind at 1. rewrite Hc.
    unfold bind at 1. rewrite Hcs, skip_skip. unfold ret.
    repeat split; [simpl; congruence|].
    intros [|i] Hi; simpl; [now rewrite Hget|].
    rewrite Hnth by lia. unfold index. simpl.
    now replace (drawn s + 1 + i)%nat with (drawn s + S i)%nat by lia.
Qed.

(** [_generate_secure_password] on a non-empty pool returns [length]
    characters of the pool, one draw each. *)
Lemma _generate_secure_password_spec (length : Z) (s : rng) :
  exists password,
    _generate_secure_password pool length s
      = (Return password, skip (range_len length) s)
    /\ String.length password = range_len length
    /\ (forall i, (i < range_len length)%nat ->
          String.get i password = String.get (index s i) pool)
    /\ (forall c, In c (list_ascii_of_string password) ->
          contains pool c = true).
Proof.
  destruct (comprehension_choice (range_len length) s)
    as (cs & Hcs & Hlen & Hnth).
  exists (join_chars cs). unfold _generate_secure_password, bind.
  rewrite Hcs. unfold ret. repeat split.
  - now rewrite length_join_chars.
  - intros i Hi. rewrite <- Hnth by assumption.
    unfold join_chars. clear. revert i.
    induction cs as [|c cs IH]; intros [|i]; simpl; auto.
  - intros c Hc. rewrite chars_join_chars in Hc.
    destruct (In_nth_error _ _ Hc) as [i Hi].
    assert (i < range_len length)%nat as Hlt.
    { rewrite <- Hlen. apply nth_error_Some. congruence. }
    rewrite Hnth in Hi by assumption. eapply get_contains; eassumption.
Qed.

End Draw.

(** ** The checks around the draw *)

Lemma pool_of_nonempty (r : request) :
  (exists k, enabled r k = true) -> String.length (pool_of r) <> 0%nat.
Proof.
  intros [k Hk]. destruct r as [n a b c d e]. unfold pool_of. simpl in *.
  destruct k; subst;
    repeat match goal with x : bool |- _ => destruct x end;
    vm_compute; discriminate.
Qed.

Lemma _validate_parameters_valid (r : request) (s : rng) :
  valid_request r ->
  _validate_parameters (length r) (use_lowercase r) (use_uppercase r)
                       (use_digits r) (use_symbols r) s = (Return tt, s).
Proof.
  intros [[Hlo Hhi] [k Hk]]. unfold _validate_parameters.
  destruct (Z.ltb_spec (length r) 8); [lia|].
  destruct (Z.gtb_spec (length r) 128); [lia|].
  replace (any _) with true; [reflexivity|].
  unfold any. simpl. destruct k; simpl in Hk; rewrite Hk;
    repeat rewrite orb_true_r; reflexivity.
Qed.

Lemma _ensure_password_requirements_spec
    (r : request) (password : string) (s : rng) :
  let run := _ensure_password_requirements password
               (use_lowercase r) (use_uppercase r)
               (use_digits r) (use_symbols r) s in
  (meets r password = true /\ run = (Return tt, s))
  \/ (meets r password = false
      /\ exists name, run = (Raise (RuntimeError
            ("Failed to generate password with " ++ name ++ " characters")),
            s)).
Proof.
  unfold meets, _ensure_password_requirements, requirements, has_class.
  cbn [forallb enabled character_sets for_each].
  destruct (use_lowercase r), (use_uppercase r),
           (use_digits r), (use_symbols r);
    destruct (any_of (contains PyString.ascii_lowercase) password),
             (any_of (contains PyString.ascii_uppercase) password),
             (any_of (contains PyString.digits) password),
             (any_of (contains PyString.punctuation) password);
    cbn [implb andb negb bind ret raise];
    first [ left; split; reflexivity
          | right; split; [reflexivity | eexists; reflexivity] ].
Qed.

(** ** One call of [generate_password] on a valid request

    The password is drawn once, in [length] draws; the outcome is that
    password when it meets the requirements and a [RuntimeError] when it
    does not. Nothing is drawn again in either case. *)

Lemma generate_password_valid (r : request) (s : rng) :
  valid_request r ->
  let n := range_len (length r) in
  exists password,
    String.length password = n
    /\ (forall i, (i < n)%nat ->
          String.get i password
          = String.get (entropy s (drawn s + i)
                        mod String.length (pool_of r))%nat (pool_of r))
    /\ (forall c, In c (list_ascii_of_string password) ->
          contains (pool_of r) c = true)
    /\ ((meets r password = true
         /\ generate_password r s = (Return password, skip n s))
        \/ (meets r password = false
            /\ exists name,
                 generate_password r s
                 = (Raise (RuntimeError
                      ("Failed to generate password with " ++ name
                       ++ " characters")), skip n s))).
Proof.
  intros Hvalid n.
  destruct (_generate_secure_password_spec (pool_of r)
              (pool_of_nonempty r (proj2 Hvalid)) (length r) s)
    as (password & Hgen & Hlen & Hget & Hpool).
  exists password. repeat split; auto.
  assert (generate_password r s
          = match _ensure_password_requirements password
                    (use_lowercase r) (use_uppercase r)
                    (use_digits r) (use_symbols r) (skip n s) with
            | (Return _, s') => (Return password, s')
            | (Raise e, s') => (Raise e, s')
            end) as ->.
  { unfold generate_password. unfold bind at 1.
    rewrite _validate_parameters_valid by assumption.
    unfold bind at 1. fold (pool_of r). rewrite Hgen. reflexivity. }
  destruct (_ensure_password_requirements_spec r password (skip n s))
    as [[Hm ->] | [Hm [name ->]]]; [left | right]; split; auto.
  now exists name.
Qed.

Lemma generate_password_draws_once (r : request) (s : rng) :
  valid_request r ->
  snd (generate_password r s) = skip (range_len (length r)) s.
Proof.
  intros Hvalid.
  destruct (generate_password_valid r s Hvalid)
    as (password & _ & _ & _ & [[_ ->] | [_ [name ->]]]); reflexivity.
Qed.

Lemma generate_password_Return (r : request) (s s' : rng) (password : string) :
  valid_request r ->
  generate_password r s = (Return password, s') ->
  s' = skip (range_len (length r)) s
  /\ String.length password = range_len (length r)
  /\ meets r password = true
  /\ forall c, In c (list_ascii_of_string password) ->
       contains (pool_of r) c = true.
Proof.
  intros Hvalid Hrun.
  destruct (generate_password_valid r s Hvalid)
    as (pw & Hlen & _ & Hpool & [[Hm E] | [_ [name E]]]);
    rewrite E in Hrun; [|discriminate].
  injection Hrun as -> <-. auto.
Qed.

Lemma meets_enabled (r : request) (password : string) (k : CharacterClass) :
  meets r password = true -> enabled r k = true ->
  has_class password k = true.
Proof.
  unfold meets. rewrite forallb_forall. intros H Hk.
  assert (In k [Lowercase; Uppercase; Digits; Symbols]) as Hin
    by (destruct k; simpl; tauto).
  specialize (H k Hin). now rewrite Hk in H.
Qed.

(** With [exclude_similar], the pool has none of the similar characters. *)
Lemma pool_of_excludes_similar (r : request) (c : ascii) :
  exclude_similar r = true -> In c similar_chars ->
  contains (pool_of r) c = false.
Proof.
  destruct r as [n a b d e x]. unfold pool_of. simpl. intros -> Hc.
  repeat (destruct Hc as [<- | Hc]; [destruct a, b, d, e; reflexivity|]).
  destruct Hc.
Qed.

(** ** The claims *)

(** C1: a drawn sequence that misses an enabled class should be drawn again,
    as the docstring of [_ensure_password_requirements] says too. The code
    does not: with all classes enabled at length 8 and a random source whose
    first eight draws pick index 0, the password drawn is [aaaaaaaa];
    [generate_password] raises [RuntimeError] after exactly these eight
    draws, although the next eight draws of the same source give a password
    that meets every requirement. *)
Theorem generate_password_no_redraw :
  generate_password (all_classes 8) zeros_then_stride
  = (Raise (RuntimeError
       "Failed to generate password with uppercase characters"),
     skip 8 zeros_then_stride)
  /\ generate_password (all_classes 8) (skip 8 zeros_then_stride)
     = (Return "sS)aA2;i", skip 16 zeros_then_stride).
Proof.
  split; vm_compute; reflexivity.
Qed.

(** C2: a length below 8 or above 128, or no class enabled, makes
    [generate_password] raise [ValueError]; the random source is left as it
    was, so nothing was drawn, and no password is returned. *)
Theorem generate_password_invalid_parameter (r : request) (s : rng) :
  length r < 8 \/ length r > 128 \/ no_class_enabled r ->
  exists msg, generate_password r s = (Raise (ValueError msg), s).
Proof.
  intros H. unfold generate_password, bind, _validate_parameters.
  destruct (Z.ltb_spec (length r) 8) as [|Hlo]; [eexists; reflexivity|].
  destruct (Z.gtb_spec (length r) 128) as [|Hhi]; [eexists; reflexivity|].
  destruct H as [H | [H | H]]; try lia.
  rewrite (H Lowercase : use_lowercase r = false),
          (H Uppercase : use_uppercase r = false),
          (H Digits : use_digits r = false),
          (H Symbols : use_symbols r = false).
  eexists; reflexivity.
Qed.

Lemma generate_password_invalid_parameter_witness :
  (length (mkRequest 7 true true true true true) < 8
   \/ length (mkRequest 7 true true true true true) > 128
   \/ no_class_enabled (mkRequest 7 true true true true true))
  /\ (exists msg,
        generate_password (mkRequest 7 true true true true true) stride24
        = (Raise (ValueError msg), stride24))
  /\ (exists msg,
        generate_password (mkRequest 129 true false false false false) stride24
        = (Raise (ValueError msg), stride24))
  /\ (exists msg,
        generate_password (mkRequest 16 false false false false true) stride24
        = (Raise (ValueError msg), stride24)).
Proof.
  split; [left; simpl; lia|].
  split; [|split].
  - apply generate_password_invalid_parameter. left. simpl. lia.
  - apply generate_password_invalid_parameter. right. left. simpl. lia.
  - apply generate_password_invalid_parameter. right. right.
    intros k. destruct k; reflexivity.
Defined.

(** C3: on a valid request, a password returned by [generate_password] has
    exactly the requested length. *)
Theorem generate_password_length
    (r : request) (s s' : rng) (password : string) :
  valid_request r ->
  generate_password r s = (Return password, s') ->
  len password = length r.
Proof.
  intros Hvalid Hrun.
  destruct (generate_password_Return r s s' password Hvalid Hrun)
    as (_ & Hlen & _).
  unfold len, range_len in *. rewrite Hlen.
  destruct Hvalid as [[Hlo _] _]. lia.
Qed.

Lemma generate_password_length_witness :
  valid_request (all_classes 8)
  /\ generate_password (all_classes 8) stride24
     = (Return "aA2;iJ!]", skip 8 stride24)
  /\ len "aA2;iJ!]" = 8.
Proof.
  assert (valid_request (all_classes 8)) as Hvalid
    by (split; [simpl; lia | now exists Lowercase]).
  assert (generate_password (all_classes 8) stride24
          = (Return "aA2;iJ!]", skip 8 stride24)) as Hrun
    by (vm_compute; reflexivity).
  split; [exact Hvalid|]. split; [exact Hrun|].
  exact (generate_password_length _ _ _ _ Hvalid Hrun).
Defined.

(** C4: on a valid request, a password returned by [generate_password] has,
    for every enabled class, at least one character of the full alphabet of
    that class. *)
Theorem generate_password_has_each_class
    (r : request) (s s' : rng) (password : string) (k : CharacterClass) :
  valid_request r ->
  generate_password r s = (Return password, s') ->
  enabled r k = true ->
  exists c, In c (list_ascii_of_string password)
            /\ In c (list_ascii_of_string (character_sets k)).
Proof.
  intros Hvalid Hrun Hk.
  destruct (generate_password_Return r s s' password Hvalid Hrun)
    as (_ & _ & Hm & _).
  apply has_class_exists. eapply meets_enabled; eassumption.
Qed.

Lemma generate_password_has_each_class_witness :
  valid_request (all_classes 8)
  /\ generate_password (all_classes 8) stride24
     = (Return "aA2;iJ!]", skip 8 stride24)
  /\ enabled (all_classes 8) Digits = true
  /\ exists c, In c (list_ascii_of_string "aA2;iJ!]")
               /\ In c (list_ascii_of_string (character_sets Digits)).
Proof.
  assert (valid_request (all_classes 8)) as Hvalid
    by (split; [simpl; lia | now exists Lowercase]).
  assert (generate_password (all_classes 8) stride24
          = (Return "aA2;iJ!]", skip 8 stride24)) as Hrun
    by (vm_compute; reflexivity).
  split; [exact Hvalid|]. split; [exact Hrun|]. split; [reflexivity|].
  exact (generate_password_has_each_class _ _ _ _ Digits Hvalid Hrun eq_refl).
Defined.

(** C5: with [exclude_similar], the lowercase part of the pool has no [l] or
    [o], the uppercase part no [I] or [O], the digit part no [0] or [1]; the
    symbol part is all of [string.punctuation], which has none of the six;
    so a password returned on a valid request has none of
    [l], [o], [I], [O], [0], [1]. *)
Theorem generate_password_excludes_similar
    (r : request) (s s' : rng) (password : string) :
  valid_request r ->
  exclude_similar r = true ->
  generate_password r s = (Return password, s') ->
  (forall c, In c similar_chars ->
     ~ In c (list_ascii_of_string password))
  /\ _build_character_pool true false false false true
     = "abcdefghijkmnpqrstuvwxyz"
  /\ _build_character_pool false true false false true
     = "ABCDEFGHJKLMNPQRSTUVWXYZ"
  /\ _build_character_pool false false true false true = "23456789"
  /\ _build_character_pool false false false true true
     = PyString.punctuation
  /\ (forall c, In c similar_chars ->
        ~ In c (list_ascii_of_string PyString.punctuation)).
Proof.
  intros Hvalid Hex Hrun.
  destruct (generate_password_Return r s s' password Hvalid Hrun)
    as (_ & _ & _ & Hpool).
  split; [|repeat split; try reflexivity].
  - intros c Hc Hin. apply Hpool in Hin.
    rewrite (pool_of_excludes_similar r c Hex Hc) in Hin. discriminate.
  - intros c Hc Hin. apply contains_In in Hin. revert Hin.
    repeat (destruct Hc as [<- | Hc]; [vm_compute; discriminate|]).
    destruct Hc.
Qed.

Lemma generate_password_excludes_similar_witness :
  valid_request (all_classes 8)
  /\ exclude_similar (all_classes 8) = true
  /\ generate_password (all_classes 8) stride24
     = (Return "aA2;iJ!]", skip 8 stride24)
  /\ forall c, In c similar_chars ->
       ~ In c (list_ascii_of_string "aA2;iJ!]").
Proof.
  assert (valid_request (all_classes 8)) as Hvalid
    by (split; [simpl; lia | now exists Lowercase]).
  assert (generate_password (all_classes 8) stride24
          = (Return "aA2;iJ!]", skip 8 stride24)) as Hrun
    by (vm_compute; reflexivity).
  split; [exact Hvalid|]. split; [reflexivity|]. split; [exact Hrun|].
  exact (proj1 (generate_password_excludes_similar _ _ _ _
                  Hvalid eq_refl Hrun)).
Defined.

(** C6: [estimate_password_strength] returns, for every string, the report
    whose flags say which classes have a character in the string, whose
    score is [min(length * 4, 40)] plus 15 for each class present, at most
    100, and whose label follows the thresholds 80, 60, 40, 20 from the
    highest down; the empty string has score 0, label [Very Weak] and no
    flag set. *)
Theorem estimate_password_strength_report (password : string) (s : rng) :
  (exists rep,
     estimate_password_strength password s = (Return rep, s)
     /\ report_length rep = len password
     /\ (forall k, report_has rep k = true <->
           exists c, In c (list_ascii_of_string password)
                     /\ In c (list_ascii_of_string (character_sets k)))
     /\ score rep = Z.min (len password * 4) 40 + 15 * classes_present rep
     /\ 0 <= score rep <= 100
     /\ (80 <= score rep -> strength rep = "Very Strong")
     /\ (60 <= score rep < 80 -> strength rep = "Strong")
     /\ (40 <= score rep < 60 -> strength rep = "Moderate")
     /\ (20 <= score rep < 40 -> strength rep = "Weak")
     /\ (score rep < 20 -> strength rep = "Very Weak"))
  /\ estimate_password_strength "" s
     = (Return (mkReport 0 "Very Weak" 0 false false false false), s).
Proof.
  split; [|reflexivity].
  unfold estimate_password_strength, ret.
  eexists. split; [reflexivity|].
  cbn [report_length score strength]. split; [reflexivity|].
  split.
  { intros k. rewrite <- has_class_exists. destruct k; reflexivity. }
  unfold classes_present.
  cbn [has_lowercase has_uppercase has_digits has_symbols].
  assert (0 <= len password) as Hlen by (unfold len; lia).
  set (base := Z.min (len password * 4) 40).
  assert (0 <= base <= 40) as Hbase by (unfold base; lia).
  clearbody base.
  destruct (any_of (contains PyString.ascii_lowercase) password),
           (any_of (contains PyString.ascii_uppercase) password),
           (any_of (contains PyString.digits) password),
           (any_of (contains PyString.punctuation) password);
    cbn [Z.b2z];
    repeat match goal with
           | |- context [?a >=? ?b] =>
               rewrite (Z.geb_leb a b); destruct (Z.leb_spec b a)
           end;
    repeat split; intros; try reflexivity; lia.
Qed.

(** A batch of [N] calls succeeds exactly when each call succeeds on the
    part of the random source left by the calls before it; the calls read
    disjoint parts of the source, [n] draws each. *)
Lemma comprehension_generate_password (r : request) :
  valid_request r ->
  let n := range_len (length r) in
  forall (N : nat) (s s' : rng) (ps : list string),
    comprehension N (generate_password r) s = (Return ps, s') <->
    List.length ps = N
    /\ s' = skip (N * n) s
    /\ forall i, (i < N)%nat ->
         generate_password r (skip (i * n) s)
         = (Return (nth i ps ""), skip (S i * n) s).
Proof.
  intros Hvalid n N. induction N as [|N IH]; intros s s' ps.
  - simpl. unfold ret. rewrite skip_0. split.
    + intros H. injection H as <- <-. repeat split. intros i Hi. lia.
    + intros (Hlen & -> & _). destruct ps; [reflexivity | discriminate].
  - cbn [comprehension]. unfold bind at 1.
    destruct (generate_password r s) as [[p | e] s1] eqn:Hp.
    + destruct (generate_password_Return r s s1 p Hvalid Hp) as (-> & _).
      fold n in Hp |- *. unfold bind at 1.
      destruct (comprehension N (generate_password r) (skip n s))
        as [[ps' | e] s2] eqn:Hps; unfold ret.
      * destruct (proj1 (IH _ _ _) Hps) as (Hlen & -> & Hnth).
        rewrite skip_skip. split.
        -- intros H. injection H as <- <-.
           split; [simpl; congruence|]. split; [reflexivity|].
           intros [|i] Hi.
           ++ simpl. now rewrite skip_0, Nat.add_0_r.
           ++ specialize (Hnth i ltac:(lia)).
              rewrite !skip_skip in Hnth. exact Hnth.
        -- intros (Hlen' & -> & Hnth').
           destruct ps as [|q qs]; [discriminate|].
           pose proof (Hnth' 0%nat ltac:(lia)) as H0.
           simpl in H0. rewrite skip_0, Hp in H0. injection H0 as ->.
           f_equal. f_equal.
           assert (comprehension N (generate_password r) (skip n s)
                   = (Return qs, skip (N * n) (skip n s))) as E.
           { apply IH. split; [simpl in Hlen'; congruence|].
             split; [reflexivity|]. intros i Hi.
             specialize (Hnth' (S i) ltac:(lia)).
             rewrite !skip_skip. exact Hnth'. }
           rewrite Hps in E. congruence.
      * split; [discriminate|]. intros (Hlen' & -> & Hnth').
        exfalso. destruct ps as [|q qs]; [discriminate|].
        assert (comprehension N (generate_password r) (skip n s)
                = (Return qs, skip (N * n) (skip n s))) as E.
        { apply IH. split; [simpl in Hlen'; congruence|].
          split; [reflexivity|]. intros i Hi.
          specialize (Hnth' (S i) ltac:(lia)).
          rewrite !skip_skip. exact Hnth'. }
        rewrite Hps in E. discriminate.
    + split; [discriminate|]. intros (_ & _ & Hnth').
      specialize (Hnth' 0%nat ltac:(lia)). simpl in Hnth'.
      rewrite skip_0, Hp in Hnth'. discriminate.
Qed.

(** C7: for a valid request and a count [N >= 0], the sequence returned by
    [generate_multiple_passwords] has exactly [N] passwords, the i-th being
    what a call of [generate_password] with the same request returns on the
    draws i*n .. (i+1)*n - 1 of the random source, and the batch returns
    whenever each of these calls does; a count of 0 gives the empty
    sequence and no error. *)
Theorem generate_multiple_passwords_count
    (r : request) (count : Z) (s : rng) :
  valid_request r ->
  0 <= count ->
  let n := range_len (length r) in
  (count = 0 -> generate_multiple_passwords count r s = (Return [], s))
  /\ forall ps s',
       generate_multiple_passwords count r s = (Return ps, s') <->
       Z.of_nat (List.length ps) = count
       /\ s' = skip (Z.to_nat count * n) s
       /\ forall i, (i < List.length ps)%nat ->
            generate_password r (skip (i * n) s)
            = (Return (nth i ps ""), skip (S i * n) s).
Proof.
  intros Hvalid Hcount n. split.
  - intros ->. reflexivity.
  - intros ps s'. unfold generate_multiple_passwords, range_len.
    rewrite (comprehension_generate_password r Hvalid). fold n.
    split; intros (Hlen & Hs & Hnth).
    + split; [lia|]. split; [assumption|]. now rewrite Hlen.
    + assert (List.length ps = Z.to_nat count) as E by lia.
      split; [assumption|]. split; [assumption|]. now rewrite <- E.
Qed.

Lemma generate_multiple_passwords_count_witness :
  valid_request (all_classes 8)
  /\ 0 <= 2
  /\ generate_multiple_passwords 2 (all_classes 8) stride24
     = (Return ["aA2;iJ!]"; "sS)aA2;i"], skip 16 stride24)
  /\ Z.of_nat (List.length ["aA2;iJ!]"; "sS)aA2;i"]) = 2
  /\ generate_password (all_classes 8) (skip 8 stride24)
     = (Return "sS)aA2;i", skip 16 stride24).
Proof.
  assert (valid_request (all_classes 8)) as Hvalid
    by (split; [simpl; lia | now exists Lowercase]).
  assert (0 <= 2) as Hcount by lia.
  assert (generate_multiple_passwords 2 (all_classes 8) stride24
          = (Return ["aA2;iJ!]"; "sS)aA2;i"], skip 16 stride24)) as Hrun
    by (vm_compute; reflexivity).
  split; [exact Hvalid|]. split; [exact Hcount|]. split; [exact Hrun|].
  destruct (proj1 (proj2 (generate_multiple_passwords_count
                            (all_classes 8) 2 stride24 Hvalid Hcount)
                         _ _) Hrun) as (Hlen & _ & Hnth).
  split; [exact Hlen|].
  exact (Hnth 1%nat (Nat.lt_succ_diag_r 1)).
Defined.

(** C8: [estimate_password_strength] returns a report on every string,
    raises nothing, leaves the random source untouched, and the report is
    the same whatever the state of the random source: two calls on the same
    string give the same report. *)
Theorem estimate_password_strength_pure (password : string) (s1 s2 : rng) :
  exists rep,
    estimate_password_strength password s1 = (Return rep, s1)
    /\ estimate_password_strength password s2 = (Return rep, s2).
Proof.
  eexists. split; reflexivity.
Qed.

(** C10: a negative count gives the empty sequence and no error, as a count
    of 0 does; [generate_password] is not called and nothing is drawn. *)
Theorem generate_multiple_passwords_negative
    (r : request) (count : Z) (s : rng) :
  count < 0 ->
  generate_multiple_passwords count r s = (Return [], s)
  /\ generate_multiple_passwords count r s
     = generate_multiple_passwords 0 r s.
Proof.
  intros Hneg. unfold generate_multiple_passwords, range_len.
  destruct count as [|p|p]; try lia. split; reflexivity.
Qed.

Lemma generate_multiple_passwords_negative_witness :
  -3 < 0
  /\ generate_multiple_passwords (-3) (all_classes 8) stride24
     = (Return [], stride24).
Proof.
  assert (-3 < 0) as Hneg by lia.
  split; [exact Hneg|].
  exact (proj1 (generate_multiple_passwords_negative
                  (all_classes 8) (-3) stride24 Hneg)).
Defined.


(** * Further properties of the code *)

(** ** Checking a property on every character *)

Lemma In_all_ascii (c : ascii) : In c all_ascii.
Proof.
  unfold all_ascii. rewrite <- (ascii_nat_embedding c).
  apply in_map, in_seq. pose proof (nat_ascii_bounded c). lia.
Qed.

Lemma for_all_ascii (P : ascii -> bool) :
  forallb P all_ascii = true -> forall c, P c = true.
Proof.
  intros H c. rewrite forallb_forall in H. apply H, In_all_ascii.
Qed.

Lemma existsb_eqb_In (c : ascii) (l : list ascii) :
  existsb (Ascii.eqb c) l = true <-> In c l.
Proof.
  rewrite existsb_exists. split.
  - intros (d & Hd & E). apply Ascii.eqb_eq in E. now subst.
  - intros H. exists c. split; [assumption | apply Ascii.eqb_refl].
Qed.

Lemma distinct_NoDup (s : string) :
  distinct s = true -> NoDup (list_ascii_of_string s).
Proof.
  induction s as [|c s IH]; simpl; [constructor|].
  rewrite andb_true_iff, negb_true_iff. intros [Hc Hs].
  constructor; [|auto]. rewrite <- contains_In. congruence.
Qed.

(** ** The pool *)

Lemma pool_of_in_pool (r : request) (c : ascii) :
  contains (pool_of r) c = in_pool r c.
Proof.
  destruct r as [n a b d e x]. unfold pool_of, in_pool.
  cbn [use_lowercase use_uppercase use_digits use_symbols exclude_similar].
  revert c.
  assert (forall P Q : ascii -> bool,
            forallb (fun c => Bool.eqb (P c) (Q c)) all_ascii = true ->
            forall c, P c = Q c) as Hall.
  { intros P Q H c. apply eqb_prop. revert c. now apply for_all_ascii. }
  destruct a, b, d, e, x; apply Hall; vm_compute; reflexivity.
Qed.

Lemma in_pool_iff (r : request) (c : ascii) :
  in_pool r c = true <->
  (exists k, enabled r k = true
             /\ In c (list_ascii_of_string (character_sets k)))
  /\ (exclude_similar r = true -> ~ In c similar_chars).
Proof.
  unfold in_pool. rewrite andb_true_iff, existsb_exists, orb_true_iff.
  rewrite !negb_true_iff. split.
  - intros [(k & _ & Hk) Hx]. apply andb_true_iff in Hk. destruct Hk as [Hk Hc].
    split; [exists k; split; [assumption | now apply contains_In]|].
    intros Hex Hin. apply existsb_eqb_In in Hin.
    destruct Hx; congruence.
  - intros [(k & Hk & Hc) Hx]. split.
    + exists k. split; [destruct k; simpl; tauto|].
      rewrite Hk. now apply contains_In.
    + destruct (exclude_similar r); [right | now left].
      destruct (existsb (Ascii.eqb c) similar_chars) eqn:E; [|reflexivity].
      apply existsb_eqb_In in E. now destruct Hx.
Qed.

(** X1: a character is in the pool of a request exactly when it belongs to
    the alphabet of an enabled class and, with [exclude_similar], is none of
    [l], [o], [I], [O], [0], [1]. *)
Theorem pool_of_membership (r : request) (c : ascii) :
  In c (list_ascii_of_string (pool_of r)) <->
  (exists k, enabled r k = true
             /\ In c (list_ascii_of_string (character_sets k)))
  /\ (exclude_similar r = true -> ~ In c similar_chars).
Proof.
  rewrite <- contains_In, pool_of_in_pool. apply in_pool_iff.
Qed.

(** X2: no character occurs twice in the pool, whatever the flags, and the
    pool has 26, 26, 10 and 32 characters for the enabled classes, less two
    for each of lowercase, uppercase and digits with [exclude_similar]. *)
Theorem pool_of_distinct (r : request) :
  NoDup (list_ascii_of_string (pool_of r))
  /\ len (pool_of r)
     = 26 * Z.b2z (use_lowercase r) + 26 * Z.b2z (use_uppercase r)
       + 10 * Z.b2z (use_digits r) + 32 * Z.b2z (use_symbols r)
       - (if exclude_similar r
          then 2 * (Z.b2z (use_lowercase r) + Z.b2z (use_uppercase r)
                    + Z.b2z (use_digits r))
          else 0).
Proof.
  destruct r as [n a b d e x]. unfold pool_of.
  cbn [use_lowercase use_uppercase use_digits use_symbols exclude_similar].
  split.
  - apply distinct_NoDup. destruct a, b, d, e, x; vm_compute; reflexivity.
  - destruct a, b, d, e, x; vm_compute; reflexivity.
Qed.

(** X3: the pool is empty exactly when no class is enabled. *)
Theorem pool_of_empty_iff (r : request) :
  pool_of r = "" <-> no_class_enabled r.
Proof.
  destruct r as [n a b d e x]. unfold pool_of, no_class_enabled.
  cbn [use_lowercase use_uppercase use_digits use_symbols exclude_similar].
  split.
  - intros H k. destruct a, b, d, e, x; vm_compute in H; try discriminate;
      destruct k; reflexivity.
  - intros H. pose proof (H Lowercase) as Ha. pose proof (H Uppercase) as Hb.
    pose proof (H Digits) as Hd. pose proof (H Symbols) as He.
    simpl in Ha, Hb, Hd, He. subst. destruct x; reflexivity.
Qed.

(** ** Drawing the password *)

Lemma get_beyond (s : string) :
  forall i, (String.length s <= i)%nat -> String.get i s = None.
Proof.
  induction s as [|c s IH]; intros i Hi; simpl in *; [reflexivity|].
  destruct i as [|i]; [lia|]. apply IH. lia.
Qed.

Lemma index_of_get (c : ascii) (s : string) :
  contains s c = true ->
  (index_of c s < String.length s)%nat
  /\ String.get (index_of c s) s = Some c.
Proof.
  induction s as [|d s IH]; simpl; [discriminate|].
  destruct (Ascii.eqb_spec c d) as [-> | Hne]; simpl.
  - intros _. split; [lia | reflexivity].
  - intros H. destruct (IH H) as [Hlt Hget]. split; [lia | assumption].
Qed.

Lemma get_In (s : string) :
  forall i c, String.get i s = Some c -> In c (list_ascii_of_string s).
Proof.
  intros i c H. apply contains_In. eapply get_contains; eassumption.
Qed.

(** X4: with a length of 0 or less nothing is drawn and the empty string is
    returned, whatever the pool; with a positive length and an empty pool
    [secrets.choice] raises [IndexError] on the first draw. *)
Theorem _generate_secure_password_edges (pool : string) (n : Z) (s : rng) :
  (n <= 0 -> _generate_secure_password pool n s = (Return "", s))
  /\ (0 < n ->
      _generate_secure_password "" n s
      = (Raise (IndexError "Cannot choose from an empty sequence"), s)).
Proof.
  unfold _generate_secure_password, range_len. split; intros Hn.
  - destruct n as [|p|p]; try lia; reflexivity.
  - destruct (Z.to_nat n) as [|m] eqn:E; [lia | reflexivity].
Qed.

(** X5: on a non-empty pool [_generate_secure_password] always returns; the
    password has [max(length, 0)] characters, that many draws are made, and
    the i-th character is the pool's character at the place the i-th draw
    gives. *)
Theorem _generate_secure_password_draws (pool : string) (n : Z) (s : rng) :
  pool <> "" ->
  exists password,
    _generate_secure_password pool n s
      = (Return password, skip (Z.to_nat n) s)
    /\ len password = Z.max n 0
    /\ (forall i, (i < Z.to_nat n)%nat ->
          String.get i password
          = String.get (entropy s (drawn s + i) mod String.length pool)%nat
                       pool)
    /\ (forall c, In c (list_ascii_of_string password) ->
          In c (list_ascii_of_string pool)).
Proof.
  intros Hpool.
  assert (String.length pool <> 0%nat) as Hlen
    by (destruct pool; [congruence | discriminate]).
  destruct (_generate_secure_password_spec pool Hlen n s)
    as (password & Hrun & Hn & Hget & Hin).
  exists password. unfold range_len in *. repeat split; auto.
  - unfold len. rewrite Hn. lia.
  - intros c Hc. apply contains_In. auto.
Qed.

Lemma _generate_secure_password_draws_witness :
  "ab" <> ""
  /\ _generate_secure_password "ab" 3 counting
     = (Return "aba", skip 3 counting).
Proof.
  assert ("ab" <> "") as Hpool by discriminate.
  split; [exact Hpool|].
  destruct (_generate_secure_password_draws "ab" 3 counting Hpool)
    as (password & Hrun & _).
  rewrite Hrun. vm_compute in Hrun. injection Hrun as <-. reflexivity.
Defined.

Lemma draw_target (pool target : string) (start : nat) :
  (forall c, In c (list_ascii_of_string target) ->
     In c (list_ascii_of_string pool)) ->
  let s := mkRng (entropy_for pool target start) start in
  _generate_secure_password pool (len target) s
  = (Return target, skip (String.length target) s).
Proof.
  intros Hin s.
  assert (range_len (len target) = String.length target) as En
    by (unfold range_len, len; lia).
  destruct (string_dec target "") as [-> | Hne].
  { unfold _generate_secure_password. simpl. unfold bind, ret. simpl.
    now rewrite skip_0. }
  assert (String.length pool <> 0%nat) as Hlen.
  { destruct target as [|t0 target']; [congruence|].
    assert (In t0 (list_ascii_of_string pool)) as H by (apply Hin; now left).
    destruct pool; [destruct H | discriminate]. }
  destruct (_generate_secure_password_spec pool Hlen (len target) s)
    as (password & Hrun & Hn & Hget & _).
  rewrite En in *. rewrite Hrun. f_equal. f_equal.
  apply String.get_correct. intros i.
  destruct (Nat.lt_ge_cases i (String.length target)) as [Hi | Hi].
  - rewrite Hget by assumption. subst s. unfold entropy_for. simpl.
    replace (start + i - start)%nat with i by lia.
    destruct (get_below target i Hi) as [c Hc]. rewrite Hc.
    destruct (index_of_get c pool) as [Hlt Hgetc].
    { apply contains_In, Hin. eapply get_In; eassumption. }
    rewrite Nat.mod_small by assumption. exact Hgetc.
  - rewrite !get_beyond by lia. reflexivity.
Qed.

(** X6: every string made of characters of the pool is a possible draw:
    some random source makes [_generate_secure_password] return it. *)
Theorem _generate_secure_password_any_target
    (pool target : string) (start : nat) :
  (forall c, In c (list_ascii_of_string target) ->
     In c (list_ascii_of_string pool)) ->
  exists e,
    _generate_secure_password pool (len target) (mkRng e start)
    = (Return target, mkRng e (start + String.length target)).
Proof.
  intros Hin. exists (entropy_for pool target start).
  exact (draw_target pool target start Hin).
Qed.

Lemma _generate_secure_password_any_target_witness :
  (forall c, In c (list_ascii_of_string "cab") ->
     In c (list_ascii_of_string "abc"))
  /\ exists e,
       _generate_secure_password "abc" 3 (mkRng e 5)
       = (Return "cab", mkRng e 8).
Proof.
  assert (forall c, In c (list_ascii_of_string "cab") ->
            In c (list_ascii_of_string "abc")) as Hin
    by (simpl; intuition).
  split; [exact Hin|].
  exact (_generate_secure_password_any_target "abc" "cab" 5 Hin).
Defined.

(** ** Checking the requirements *)

Lemma _ensure_password_requirements_outcome
    (password : string) (a b d e : bool) :
  exists o, forall s,
    _ensure_password_requirements password a b d e s = (o, s).
Proof.
  unfold _ensure_password_requirements, requirements.
  cbn [for_each].
  destruct a, b, d, e;
    destruct (any_of (contains PyString.ascii_lowercase) password),
             (any_of (contains PyString.ascii_uppercase) password),
             (any_of (contains PyString.digits) password),
             (any_of (contains PyString.punctuation) password);
    cbn [andb negb bind ret raise]; eexists; intros s; reflexivity.
Qed.

(** X7: [_ensure_password_requirements] draws nothing; it returns when
    every enabled class has a character in the password, and otherwise
    raises [RuntimeError] naming the first enabled class without one, in the
    order lowercase, uppercase, digits, symbols. *)
Theorem _ensure_password_requirements_first_missing
    (r : request) (password : string) (s : rng) :
  let run := _ensure_password_requirements password
               (use_lowercase r) (use_uppercase r)
               (use_digits r) (use_symbols r) s in
  ((forall k, enabled r k = true -> has_class password k = true) ->
   run = (Return tt, s))
  /\ (forall k,
        enabled r k = true ->
        has_class password k = false ->
        (forall j, (class_rank j < class_rank k)%nat ->
           enabled r j = true -> has_class password j = true) ->
        run = (Raise (RuntimeError
                 ("Failed to generate password with " ++ class_name k
                  ++ " characters")), s)).
Proof.
  destruct r as [n a b d e x].
  unfold _ensure_password_requirements, requirements, has_class.
  cbn [for_each enabled character_sets class_rank
       use_lowercase use_uppercase use_digits use_symbols].
  split.
  - intros H.
    pose proof (H Lowercase) as Hl. pose proof (H Uppercase) as Hu.
    pose proof (H Digits) as Hd. pose proof (H Symbols) as Hs.
    cbn [enabled character_sets use_lowercase use_uppercase use_digits
         use_symbols] in Hl, Hu, Hd, Hs.
    destruct a, b, d, e;
      repeat match goal with
             | H : true = true -> _ |- _ => specialize (H eq_refl); rewrite H
             end;
      reflexivity.
  - intros k Hk Hmiss Hbefore.
    pose proof (Hbefore Lowercase) as Hl. pose proof (Hbefore Uppercase) as Hu.
    pose proof (Hbefore Digits) as Hd.
    destruct k;
      cbn [enabled character_sets class_rank class_name
           use_lowercase use_uppercase use_digits use_symbols]
        in Hk, Hmiss, Hl, Hu, Hd |- *;
      rewrite Hmiss;
      repeat match goal with
             | H : (?i < ?j)%nat -> _ |- _ =>
                 first [ specialize (H ltac:(lia)) | clear H ]
             end;
      repeat match goal with
             | x : bool |- _ => destruct x
             end;
      try discriminate;
      repeat match goal with
             | H : true = true -> _ |- _ => specialize (H eq_refl); rewrite H
             | H : false = true -> _ |- _ => clear H
             end;
      reflexivity.
Qed.

(** ** One call of [generate_password], on any request *)

Lemma valid_request_cases (r : request) :
  valid_request r
  \/ length r < 8
  \/ (8 <= length r /\ length r > 128)
  \/ (8 <= length r <= 128 /\ no_class_enabled r).
Proof.
  destruct (Z.lt_ge_cases (length r) 8) as [|Hlo]; [tauto|].
  destruct (Z.lt_ge_cases 128 (length r)) as [|Hhi];
    [right; right; left; lia|].
  destruct (use_lowercase r) eqn:Ea;
    [left; split; [lia | now exists Lowercase]|].
  destruct (use_uppercase r) eqn:Eb;
    [left; split; [lia | now exists Uppercase]|].
  destruct (use_digits r) eqn:Ed;
    [left; split; [lia | now exists Digits]|].
  destruct (use_symbols r) eqn:Ee;
    [left; split; [lia | now exists Symbols]|].
  right; right; right. split; [lia|]. intros k. now destruct k.
Qed.

Lemma generate_password_invalid (r : request) (s : rng) :
  (length r < 8 ->
   generate_password r s
   = (Raise (ValueError "Password length must be at least 8 characters"), s))
  /\ (8 <= length r -> length r > 128 ->
      generate_password r s
      = (Raise (ValueError "Password length cannot exceed 128 characters"),
         s))
  /\ (8 <= length r <= 128 -> no_class_enabled r ->
      generate_password r s
      = (Raise (ValueError "At least one character set must be selected"),
         s)).
Proof.
  unfold generate_password, bind, _validate_parameters.
  repeat split.
  - intros H. destruct (Z.ltb_spec (length r) 8); [reflexivity | lia].
  - intros Hlo Hhi. destruct (Z.ltb_spec (length r) 8); [lia|].
    destruct (Z.gtb_spec (length r) 128); [reflexivity | lia].
  - intros Hl H. destruct (Z.ltb_spec (length r) 8); [lia|].
    destruct (Z.gtb_spec (length r) 128); [lia|].
    rewrite (H Lowercase : use_lowercase r = false),
            (H Uppercase : use_uppercase r = false),
            (H Digits : use_digits r = false),
            (H Symbols : use_symbols r = false).
    reflexivity.
Qed.

(** X8: [generate_password] raises [ValueError] exactly on the requests
    that are not valid, and then draws nothing; the length is checked before
    the classes, so a request with a bad length and no class gets the
    message about the length. *)
Theorem generate_password_ValueError_iff (r : request) (s : rng) :
  ((exists msg s', generate_password r s = (Raise (ValueError msg), s'))
   <-> ~ valid_request r)
  /\ (length r < 8 ->
      generate_password r s
      = (Raise (ValueError "Password length must be at least 8 characters"),
         s))
  /\ (128 < length r ->
      generate_password r s
      = (Raise (ValueError "Password length cannot exceed 128 characters"),
         s)).
Proof.
  destruct (generate_password_invalid r s) as (Hlo & Hhi & Hnone).
  split; [|split; [assumption | intros H; apply Hhi; lia]].
  split.
  - intros (msg & s' & Hrun) Hvalid.
    destruct (generate_password_valid r s Hvalid)
      as (pw & _ & _ & _ & [[_ E] | [_ [name E]]]);
      rewrite E in Hrun; discriminate.
  - intros Hinv.
    destruct (valid_request_cases r) as [H | [H | [[H1 H2] | [H1 H2]]]].
    + contradiction.
    + eexists; eexists; apply Hlo; assumption.
    + eexists; eexists; apply Hhi; assumption.
    + eexists; eexists; apply Hnone; assumption.
Qed.

(** X9: [generate_password] never raises [IndexError], since
    [secrets.choice] is reached only with a non-empty pool: for every
    request and random source, it returns a password or raises [ValueError]
    or [RuntimeError]. *)
Theorem generate_password_never_IndexError (r : request) (s : rng) :
  (exists password, fst (generate_password r s) = Return password)
  \/ (exists msg, fst (generate_password r s) = Raise (ValueError msg))
  \/ (exists msg, fst (generate_password r s) = Raise (RuntimeError msg)).
Proof.
  destruct (generate_password_invalid r s) as (Hlo & Hhi & Hnone).
  destruct (valid_request_cases r) as [H | [H | [[H1 H2] | [H1 H2]]]].
  - destruct (generate_password_valid r s H)
      as (pw & _ & _ & _ & [[_ E] | [_ [name E]]]); rewrite E.
    + left. now exists pw.
    + right. right. eexists; reflexivity.
  - rewrite Hlo by assumption. right. left. eexists; reflexivity.
  - rewrite Hhi by assumption. right. left. eexists; reflexivity.
  - rewrite Hnone by assumption. right. left. eexists; reflexivity.
Qed.

Lemma generate_password_unfold
    (r : request) (s s1 : rng) (password : string) :
  valid_request r ->
  _generate_secure_password (pool_of r) (length r) s = (Return password, s1) ->
  generate_password r s
  = match _ensure_password_requirements password
            (use_lowercase r) (use_uppercase r)
            (use_digits r) (use_symbols r) s1 with
    | (Return _, s') => (Return password, s')
    | (Raise e, s') => (Raise e, s')
    end.
Proof.
  intros Hvalid Hgen. unfold generate_password. unfold bind at 1.
  rewrite _validate_parameters_valid by assumption.
  unfold bind at 1. fold (pool_of r). rewrite Hgen. reflexivity.
Qed.

Lemma meets_iff (r : request) (password : string) :
  meets r password = true <->
  forall k, enabled r k = true -> has_class password k = true.
Proof.
  split; [intros H k; now apply meets_enabled|].
  intros H. unfold meets. apply forallb_forall. intros k _.
  destruct (enabled r k) eqn:E; [|reflexivity]. simpl. auto.
Qed.

Lemma class_eq_dec (j k : CharacterClass) : {j = k} + {j <> k}.
Proof.
  decide equality.
Qed.

(** The alphabets of two different classes share no character. *)
Lemma character_sets_disjoint (j k : CharacterClass) (c : ascii) :
  In c (list_ascii_of_string (character_sets j)) ->
  In c (list_ascii_of_string (character_sets k)) ->
  j = k.
Proof.
  rewrite <- !contains_In. revert c.
  assert (forall c,
            negb (contains (character_sets j) c
                  && contains (character_sets k) c)
            || (class_rank j =? class_rank k)%nat = true) as H.
  { apply for_all_ascii. destruct j, k; vm_compute; reflexivity. }
  intros c Hj Hk. specialize (H c). rewrite Hj, Hk in H. simpl in H.
  apply Nat.eqb_eq in H. destruct j, k; simpl in H; congruence.
Qed.

(** X10: a password returned on a valid request has only characters of the
    enabled classes. *)
Theorem generate_password_only_enabled_classes
    (r : request) (s s' : rng) (password : string) (c : ascii) :
  valid_request r ->
  generate_password r s = (Return password, s') ->
  In c (list_ascii_of_string password) ->
  exists k, enabled r k = true
            /\ In c (list_ascii_of_string (character_sets k)).
Proof.
  intros Hvalid Hrun Hc.
  destruct (generate_password_Return r s s' password Hvalid Hrun)
    as (_ & _ & _ & Hpool).
  specialize (Hpool c Hc). rewrite pool_of_in_pool in Hpool.
  apply in_pool_iff in Hpool. tauto.
Qed.

Lemma generate_password_only_enabled_classes_witness :
  valid_request (mkRequest 8 true false false false false)
  /\ generate_password (mkRequest 8 true false false false false) counting
     = (Return "abcdefgh", skip 8 counting)
  /\ In "c"%char (list_ascii_of_string "abcdefgh")
  /\ exists k, enabled (mkRequest 8 true false false false false) k = true
               /\ In "c"%char (list_ascii_of_string (character_sets k)).
Proof.
  assert (valid_request (mkRequest 8 true false false false false)) as Hvalid
    by (split; [simpl; lia | now exists Lowercase]).
  assert (generate_password (mkRequest 8 true false false false false)
            counting
          = (Return "abcdefgh", skip 8 counting)) as Hrun
    by (vm_compute; reflexivity).
  assert (In "c"%char (list_ascii_of_string "abcdefgh")) as Hc
    by (simpl; tauto).
  split; [exact Hvalid|]. split; [exact Hrun|]. split; [exact Hc|].
  exact (generate_password_only_enabled_classes _ _ _ _ _ Hvalid Hrun Hc).
Defined.

(** X11: with exactly one class enabled, a valid request never fails:
    whatever is drawn, the password is returned. *)
Theorem generate_password_one_class
    (r : request) (k : CharacterClass) (s : rng) :
  valid_request r ->
  enabled r k = true ->
  (forall j, j <> k -> enabled r j = false) ->
  exists password,
    generate_password r s
    = (Return password, skip (Z.to_nat (length r)) s).
Proof.
  intros Hvalid Hk Honly.
  destruct (generate_password_valid r s Hvalid)
    as (pw & Hlen & _ & Hpool & [[_ E] | [Hm _]]); [now exists pw|].
  exfalso. assert (meets r pw = true) as Hmeets; [|congruence].
  apply meets_iff. intros j Hj.
  assert (j = k) as -> by
    (destruct (class_eq_dec j k) as [|Hne];
     [assumption | rewrite (Honly j Hne) in Hj; discriminate]).
  apply has_class_exists.
  destruct (get_below pw 0) as [c Hc].
  { rewrite Hlen. unfold range_len. destruct Hvalid as [[Hlo _] _]. lia. }
  exists c. split; [eapply get_In; eassumption|].
  assert (in_pool r c = true) as Hin
    by (rewrite <- pool_of_in_pool; apply Hpool; eapply get_In; eassumption).
  apply in_pool_iff in Hin. destruct Hin as [(j & Hj' & Hcj) _].
  destruct (class_eq_dec j k) as [-> | Hne]; [assumption|].
  rewrite (Honly j Hne) in Hj'. discriminate.
Qed.

Lemma generate_password_one_class_witness :
  valid_request (mkRequest 8 false false true false false)
  /\ enabled (mkRequest 8 false false true false false) Digits = true
  /\ (forall j, j <> Digits ->
        enabled (mkRequest 8 false false true false false) j = false)
  /\ exists password,
       generate_password (mkRequest 8 false false true false false) all_zero
       = (Return password, skip 8 all_zero).
Proof.
  assert (valid_request (mkRequest 8 false false true false false)) as Hvalid
    by (split; [simpl; lia | now exists Digits]).
  assert (forall j, j <> Digits ->
            enabled (mkRequest 8 false false true false false) j = false)
    as Honly by (intros j Hj; destruct j; [reflexivity .. | congruence |
                                           reflexivity]).
  split; [exact Hvalid|]. split; [reflexivity|]. split; [exact Honly|].
  exact (generate_password_one_class _ Digits all_zero Hvalid eq_refl Honly).
Defined.

Lemma any_of_constant (f : ascii -> bool) (c0 : ascii) (s : string) :
  s <> "" ->
  (forall i, (i < String.length s)%nat -> String.get i s = Some c0) ->
  any_of f s = f c0.
Proof.
  induction s as [|c s IH]; intros Hne Hget; [congruence|].
  pose proof (Hget 0%nat ltac:(simpl; lia)) as H0. simpl in H0.
  injection H0 as ->. simpl.
  destruct (string_dec s "") as [-> | Hs]; [apply orb_false_r|].
  rewrite IH; [apply orb_diag | assumption |].
  intros i Hi. apply (Hget (S i)). simpl. lia.
Qed.

(** With two classes enabled, the first character of the pool belongs to
    one of them only, so a password made of it alone misses the other. *)
Lemma first_char_misses (r : request) (j k : CharacterClass) :
  enabled r j = true -> enabled r k = true -> j <> k ->
  exists c0,
    String.get (0 mod String.length (pool_of r)) (pool_of r) = Some c0
    /\ forallb (fun k' => implb (enabled r k')
                                (contains (character_sets k') c0))
               classes = false.
Proof.
  destruct r as [n a b d e x]. unfold pool_of.
  cbn [enabled use_lowercase use_uppercase use_digits use_symbols
       exclude_similar].
  intros Hj Hk Hne.
  destruct j, k; try congruence; simpl in Hj, Hk; subst;
    repeat match goal with y : bool |- _ => destruct y end;
    eexists; split; cbv; reflexivity.
Qed.

(** X12: with two or more classes enabled, every valid request can fail:
    the random source whose draws all pick the first character of the pool
    makes [generate_password] raise [RuntimeError]. *)
Theorem generate_password_two_classes_can_fail
    (r : request) (j k : CharacterClass) :
  valid_request r ->
  enabled r j = true -> enabled r k = true -> j <> k ->
  exists msg,
    generate_password r all_zero
    = (Raise (RuntimeError msg), skip (Z.to_nat (length r)) all_zero).
Proof.
  intros Hvalid Hj Hk Hne.
  destruct (generate_password_valid r all_zero Hvalid)
    as (pw & Hlen & Hget & _ & [[Hm _] | [_ [name E]]]);
    [|eexists; exact E].
  exfalso.
  destruct (first_char_misses r j k Hj Hk Hne) as (c0 & Hc0 & Hmiss).
  assert (pw <> "") as Hpw.
  { intros ->. simpl in Hlen. unfold range_len in Hlen.
    destruct Hvalid as [[Hlo _] _]. lia. }
  assert (forall k', has_class pw k' = contains (character_sets k') c0) as Hhas.
  { intros k'. apply any_of_constant; [assumption|].
    intros i Hi. rewrite Hget by (rewrite <- Hlen; assumption). exact Hc0. }
  unfold meets, classes in *. cbn [forallb] in Hm, Hmiss.
  rewrite !Hhas in Hm. congruence.
Qed.

Lemma generate_password_two_classes_can_fail_witness :
  valid_request (mkRequest 12 true false true false false)
  /\ enabled (mkRequest 12 true false true false false) Lowercase = true
  /\ enabled (mkRequest 12 true false true false false) Digits = true
  /\ Lowercase <> Digits
  /\ exists msg,
       generate_password (mkRequest 12 true false true false false) all_zero
       = (Raise (RuntimeError msg), skip 12 all_zero).
Proof.
  assert (valid_request (mkRequest 12 true false true false false)) as Hvalid
    by (split; [simpl; lia | now exists Lowercase]).
  assert (Lowercase <> Digits) as Hne by discriminate.
  split; [exact Hvalid|]. split; [reflexivity|]. split; [reflexivity|].
  split; [exact Hne|].
  exact (generate_password_two_classes_can_fail _ Lowercase Digits
           Hvalid eq_refl eq_refl Hne).
Defined.

(** X13: the passwords a valid request can return are exactly the strings
    of the requested length, made of characters of the pool, with a
    character of every enabled class. *)
Theorem generate_password_possible_outputs (r : request) (password : string) :
  valid_request r ->
  ((exists s s', generate_password r s = (Return password, s'))
   <->
   len password = length r
   /\ (forall c, In c (list_ascii_of_string password) ->
         In c (list_ascii_of_string (pool_of r)))
   /\ (forall k, enabled r k = true ->
         exists c, In c (list_ascii_of_string password)
                   /\ In c (list_ascii_of_string (character_sets k)))).
Proof.
  intros Hvalid. split.
  - intros (s & s' & Hrun).
    destruct (generate_password_Return r s s' password Hvalid Hrun)
      as (_ & Hlen & Hm & Hpool).
    split; [|split].
    + unfold len, range_len in *. rewrite Hlen.
      destruct Hvalid as [[Hlo _] _]. lia.
    + intros c Hc. apply contains_In. auto.
    + intros k Hk. apply has_class_exists. eapply meets_enabled; eassumption.
  - intros (Hlen & Hpool & Hclasses).
    set (s := mkRng (entropy_for (pool_of r) password 0) 0).
    pose proof (draw_target (pool_of r) password 0 Hpool) as Hdraw.
    cbv zeta in Hdraw. fold s in Hdraw. rewrite Hlen in Hdraw.
    exists s. rewrite (generate_password_unfold r s _ password Hvalid Hdraw).
    destruct (_ensure_password_requirements_spec r password
                (skip (String.length password) s))
      as [[_ E] | [Hm _]].
    + cbv zeta in E. rewrite E. eexists; reflexivity.
    + exfalso. assert (meets r password = true) as Hmeets; [|congruence].
      apply meets_iff. intros k Hk. apply has_class_exists. auto.
Qed.

Lemma generate_password_possible_outputs_witness :
  valid_request (all_classes 8)
  /\ exists s s',
       generate_password (all_classes 8) s = (Return "aA2!bB3#", s').
Proof.
  assert (valid_request (all_classes 8)) as Hvalid
    by (split; [simpl; lia | now exists Lowercase]).
  split; [exact Hvalid|].
  apply (proj2 (generate_password_possible_outputs
                  (all_classes 8) "aA2!bB3#" Hvalid)).
  split; [reflexivity|]. split.
  - intros c Hc. simpl in Hc.
    repeat (destruct Hc as [<- | Hc];
            [apply contains_In; vm_compute; reflexivity|]).
    destruct Hc.
  - intros k _. destruct k;
      [exists "a"%char | exists "A"%char | exists "2"%char | exists "!"%char];
      split; apply contains_In; vm_compute; reflexivity.
Defined.

(** X14: a call of [generate_password] reads only the next [length] values
    of the random source: on two sources that agree on them, it has the same
    outcome. *)
Theorem generate_password_reads_only_its_draws (r : request) (s1 s2 : rng) :
  (forall i, (i < Z.to_nat (length r))%nat ->
     entropy s1 (drawn s1 + i) = entropy s2 (drawn s2 + i)) ->
  fst (generate_password r s1) = fst (generate_password r s2).
Proof.
  intros Hagree.
  destruct (valid_request_cases r) as [Hvalid | Hinv].
  - pose proof (pool_of_nonempty r (proj2 Hvalid)) as Hpool.
    destruct (_generate_secure_password_spec (pool_of r) Hpool (length r) s1)
      as (pw1 & Hrun1 & Hlen1 & Hget1 & _).
    destruct (_generate_secure_password_spec (pool_of r) Hpool (length r) s2)
      as (pw2 & Hrun2 & Hlen2 & Hget2 & _).
    assert (pw1 = pw2) as <-.
    { apply String.get_correct. intros i.
      destruct (Nat.lt_ge_cases i (range_len (length r))) as [Hi | Hi].
      - rewrite Hget1, Hget2 by assumption. now rewrite Hagree.
      - rewrite !get_beyond by lia. reflexivity. }
    rewrite (generate_password_unfold r s1 _ pw1 Hvalid Hrun1),
            (generate_password_unfold r s2 _ pw1 Hvalid Hrun2).
    destruct (_ensure_password_requirements_outcome pw1
                (use_lowercase r) (use_uppercase r)
                (use_digits r) (use_symbols r)) as [o Ho].
    rewrite !Ho. destruct o; reflexivity.
  - destruct (generate_password_invalid r s1) as (Hlo1 & Hhi1 & Hnone1).
    destruct (generate_password_invalid r s2) as (Hlo2 & Hhi2 & Hnone2).
    destruct Hinv as [H | [[H H'] | [H H']]].
    + now rewrite Hlo1, Hlo2.
    + now rewrite Hhi1, Hhi2.
    + now rewrite Hnone1, Hnone2.
Qed.

Lemma generate_password_reads_only_its_draws_witness :
  (forall i, (i < Z.to_nat (length (all_classes 8)))%nat ->
     entropy zeros_then_stride (drawn zeros_then_stride + i)
     = entropy all_zero (drawn all_zero + i))
  /\ fst (generate_password (all_classes 8) zeros_then_stride)
     = fst (generate_password (all_classes 8) all_zero).
Proof.
  assert (forall i, (i < Z.to_nat (length (all_classes 8)))%nat ->
            entropy zeros_then_stride (drawn zeros_then_stride + i)
            = entropy all_zero (drawn all_zero + i)) as Hagree.
  { intros i Hi. simpl in *.
    destruct (Nat.ltb_spec i 8) as [_ | Hge]; [reflexivity|].
    change (Z.to_nat 8) with 8%nat in Hi. lia. }
  split; [exact Hagree|].
  exact (generate_password_reads_only_its_draws _ _ _ Hagree).
Defined.

(** ** Batches *)

Lemma comprehension_add {A} (body : M A) (a b : nat) (s : rng) :
  comprehension (a + b) body s
  = (xs <- comprehension a body ;;
     ys <- comprehension b body ;;
     ret (xs ++ ys)%list) s.
Proof.
  revert s. induction a as [|a IH]; intros s.
  - simpl. unfold bind, ret.
    destruct (comprehension b body s) as [[ys | e] s']; reflexivity.
  - cbn [Nat.add comprehension]. unfold bind.
    destruct (body s) as [[x | e] s1]; [|reflexivity].
    rewrite IH. unfold bind, ret.
    destruct (comprehension a body s1) as [[xs | e] s2]; [|reflexivity].
    destruct (comprehension b body s2) as [[ys | e] s3]; reflexivity.
Qed.

(** X15: a batch of [a + b] passwords is a batch of [a] followed by a batch
    of [b] on what the first left of the random source: the passwords are
    those of the two batches, in order, and an error of either is the error
    of the whole. *)
Theorem generate_multiple_passwords_add
    (r : request) (a b : Z) (s : rng) :
  0 <= a -> 0 <= b ->
  generate_multiple_passwords (a + b) r s
  = (xs <- generate_multiple_passwords a r ;;
     ys <- generate_multiple_passwords b r ;;
     ret (xs ++ ys)%list) s.
Proof.
  intros Ha Hb. unfold generate_multiple_passwords, range_len.
  rewrite Z2Nat.inj_add by assumption. apply comprehension_add.
Qed.

Lemma generate_multiple_passwords_add_witness :
  0 <= 1 /\ 0 <= 1
  /\ generate_multiple_passwords (1 + 1) (all_classes 8) stride24
     = (Return (["aA2;iJ!]"] ++ ["sS)aA2;i"])%list, skip 16 stride24).
Proof.
  assert (0 <= 1) as H1 by lia.
  split; [exact H1|]. split; [exact H1|].
  rewrite (generate_multiple_passwords_add (all_classes 8) 1 1 stride24 H1 H1).
  vm_compute. reflexivity.
Defined.

(** X16: on a request that is not valid, a batch of one or more raises the
    [ValueError] of its first call and draws nothing; no list is returned. *)
Theorem generate_multiple_passwords_invalid
    (r : request) (count : Z) (s : rng) :
  ~ valid_request r ->
  1 <= count ->
  exists msg,
    generate_multiple_passwords count r s = (Raise (ValueError msg), s).
Proof.
  intros Hinv Hcount. unfold generate_multiple_passwords, range_len.
  destruct (Z.to_nat count) as [|m] eqn:E; [lia|].
  cbn [comprehension]. unfold bind at 1.
  destruct (generate_password_invalid r s) as (Hlo & Hhi & Hnone).
  destruct (valid_request_cases r) as [H | [H | [[H1 H2] | [H1 H2]]]].
  - contradiction.
  - rewrite Hlo by assumption. eexists; reflexivity.
  - rewrite Hhi by assumption. eexists; reflexivity.
  - rewrite Hnone by assumption. eexists; reflexivity.
Qed.

Lemma generate_multiple_passwords_invalid_witness :
  ~ valid_request (all_classes 4)
  /\ 1 <= 3
  /\ exists msg,
       generate_multiple_passwords 3 (all_classes 4) stride24
       = (Raise (ValueError msg), stride24).
Proof.
  assert (~ valid_request (all_classes 4)) as Hinv
    by (intros [[Hlo _] _]; simpl in Hlo; lia).
  assert (1 <= 3) as Hcount by lia.
  split; [exact Hinv|]. split; [exact Hcount|].
  exact (generate_multiple_passwords_invalid _ 3 stride24 Hinv Hcount).
Defined.

(** X17: every password of a batch returned on a valid request has the
    requested length, only characters of the pool, and a character of every
    enabled class; the batch has drawn [count * length] times. *)
Theorem generate_multiple_passwords_each
    (r : request) (count : Z) (s s' : rng) (ps : list string) :
  valid_request r ->
  generate_multiple_passwords count r s = (Return ps, s') ->
  drawn s' = (drawn s + Z.to_nat count * Z.to_nat (length r))%nat
  /\ forall p, In p ps ->
       len p = length r
       /\ (forall c, In c (list_ascii_of_string p) ->
             In c (list_ascii_of_string (pool_of r)))
       /\ (forall k, enabled r k = true ->
             exists c, In c (list_ascii_of_string p)
                       /\ In c (list_ascii_of_string (character_sets k))).
Proof.
  intros Hvalid Hrun. unfold generate_multiple_passwords in Hrun.
  apply (comprehension_generate_password r Hvalid) in Hrun.
  destruct Hrun as (Hlen & -> & Hnth). split; [reflexivity|].
  intros p Hp. destruct (In_nth ps p "" Hp) as (i & Hi & <-).
  rewrite Hlen in Hi. specialize (Hnth i Hi).
  destruct (generate_password_Return r _ _ _ Hvalid Hnth)
    as (_ & Hn & Hm & Hpool).
  split; [|split].
  - unfold len, range_len in *. rewrite Hn.
    destruct Hvalid as [[Hlo _] _]. lia.
  - intros c Hc. apply contains_In. auto.
  - intros k Hk. apply has_class_exists. eapply meets_enabled; eassumption.
Qed.

Lemma generate_multiple_passwords_each_witness :
  valid_request (all_classes 8)
  /\ generate_multiple_passwords 2 (all_classes 8) stride24
     = (Return ["aA2;iJ!]"; "sS)aA2;i"], skip 16 stride24)
  /\ drawn (skip 16 stride24) = (drawn stride24 + 2 * 8)%nat
  /\ len "sS)aA2;i" = 8.
Proof.
  assert (valid_request (all_classes 8)) as Hvalid
    by (split; [simpl; lia | now exists Lowercase]).
  assert (generate_multiple_passwords 2 (all_classes 8) stride24
          = (Return ["aA2;iJ!]"; "sS)aA2;i"], skip 16 stride24)) as Hrun
    by (vm_compute; reflexivity).
  split; [exact Hvalid|]. split; [exact Hrun|].
  destruct (generate_multiple_passwords_each _ _ _ _ _ Hvalid Hrun)
    as [Hdrawn Heach].
  split; [exact Hdrawn|].
  exact (proj1 (Heach "sS)aA2;i" (or_intror (or_introl eq_refl)))).
Defined.

Lemma comprehension_generate_password_Raise (r : request) :
  valid_request r ->
  forall (N : nat) (s s' : rng) (e : exn),
    comprehension N (generate_password r) s = (Raise e, s') ->
    (exists msg, e = RuntimeError msg)
    /\ exists k, (1 <= k <= N)%nat
                 /\ s' = skip (k * range_len (length r)) s.
Proof.
  intros Hvalid N. induction N as [|N IH]; intros s s' e Hrun.
  - discriminate.
  - cbn [comprehension] in Hrun. unfold bind at 1 in Hrun.
    destruct (generate_password_valid r s Hvalid)
      as (pw & _ & _ & _ & [[_ E] | [_ [name E]]]); rewrite E in Hrun.
    + unfold bind at 1 in Hrun.
      destruct (comprehension N (generate_password r)
                  (skip (range_len (length r)) s))
        as [[ps | e'] s2] eqn:Hrest; [discriminate|].
      injection Hrun as <- <-.
      destruct (IH _ _ _ Hrest) as (Hmsg & k & Hk & ->).
      split; [assumption|]. exists (S k). split; [lia|].
      now rewrite skip_skip.
    + injection Hrun as <- <-. split; [eexists; reflexivity|].
      exists 1%nat. split; [lia|]. simpl. now rewrite Nat.add_0_r.
Qed.

(** X18: when a batch on a valid request fails, the error is the
    [RuntimeError] of one of its calls; the batch stops at that call, after
    a whole number of passwords drawn, and returns no partial list. *)
Theorem generate_multiple_passwords_failure
    (r : request) (count : Z) (s s' : rng) (e : exn) :
  valid_request r ->
  generate_multiple_passwords count r s = (Raise e, s') ->
  (exists msg, e = RuntimeError msg)
  /\ exists k, 1 <= k <= count
               /\ drawn s' = (drawn s + Z.to_nat k * Z.to_nat (length r))%nat.
Proof.
  intros Hvalid Hrun.
  destruct (comprehension_generate_password_Raise r Hvalid _ _ _ _ Hrun)
    as (Hmsg & k & Hk & ->).
  split; [assumption|]. exists (Z.of_nat k). unfold range_len in *.
  split; [lia|]. simpl. now rewrite Nat2Z.id.
Qed.

Lemma generate_multiple_passwords_failure_witness :
  valid_request (all_classes 8)
  /\ generate_multiple_passwords 3 (all_classes 8) stride24
     = (Raise (RuntimeError
          "Failed to generate password with digits characters"),
        skip 24 stride24)
  /\ exists k, 1 <= k <= 3
               /\ drawn (skip 24 stride24)
                  = (drawn stride24 + Z.to_nat k * 8)%nat.
Proof.
  assert (valid_request (all_classes 8)) as Hvalid
    by (split; [simpl; lia | now exists Lowercase]).
  assert (generate_multiple_passwords 3 (all_classes 8) stride24
          = (Raise (RuntimeError
               "Failed to generate password with digits characters"),
             skip 24 stride24)) as Hrun
    by (vm_compute; reflexivity).
  split; [exact Hvalid|]. split; [exact Hrun|].
  exact (proj2 (generate_multiple_passwords_failure _ _ _ _ _ Hvalid Hrun)).
Defined.

(** ** The strength estimate *)

Lemma estimate_password_strength_Return
    (password : string) (s s' : rng) (rep : StrengthReport) :
  estimate_password_strength password s = (Return rep, s') ->
  s' = s
  /\ report_length rep = len password
  /\ (forall k, report_has rep k = has_class password k)
  /\ score rep = Z.min (len password * 4) 40 + 15 * classes_present rep
  /\ strength rep
     = if score rep >=? 80 then "Very Strong"
       else if score rep >=? 60 then "Strong"
       else if score rep >=? 40 then "Moderate"
       else if score rep >=? 20 then "Weak"
       else "Very Weak".
Proof.
  unfold estimate_password_strength, ret, has_class.
  remember (any_of (contains PyString.ascii_lowercase) password) as hl eqn:El.
  remember (any_of (contains PyString.ascii_uppercase) password) as hu eqn:Eu.
  remember (any_of (contains PyString.digits) password) as hd eqn:Ed.
  remember (any_of (contains PyString.punctuation) password) as hs eqn:Es.
  intros H. injection H as <- <-. unfold classes_present.
  cbn [report_length score strength has_lowercase has_uppercase has_digits
       has_symbols].
  split; [reflexivity|]. split; [reflexivity|]. split; [|split].
  - intros k. destruct k; cbn [report_has character_sets has_lowercase
                               has_uppercase has_digits has_symbols];
      assumption.
  - destruct hl, hu, hd, hs; cbn [Z.b2z]; lia.
  - reflexivity.
Qed.

Lemma classes_present_has (password : string) (rep : StrengthReport) :
  (forall k, report_has rep k = has_class password k) ->
  classes_present rep
  = Z.b2z (has_class password Lowercase) + Z.b2z (has_class password Uppercase)
    + Z.b2z (has_class password Digits) + Z.b2z (has_class password Symbols).
Proof.
  intros H. unfold classes_present.
  now rewrite <- (H Lowercase), <- (H Uppercase), <- (H Digits),
              <- (H Symbols).
Qed.

Lemma any_of_append (f : ascii -> bool) (a b : string) :
  any_of f (a ++ b) = any_of f a || any_of f b.
Proof.
  induction a as [|c a IH]; simpl; [reflexivity|].
  now rewrite IH, orb_assoc.
Qed.

Lemma length_append (a b : string) :
  String.length (a ++ b) = (String.length a + String.length b)%nat.
Proof.
  induction a as [|c a IH]; simpl; congruence.
Qed.

(** X19: adding characters to a string, in front or behind, never lowers
    its score and never clears a class flag. *)
Theorem estimate_password_strength_monotone
    (x a y : string) (s s1 s2 : rng) (ra rxay : StrengthReport) :
  estimate_password_strength a s = (Return ra, s1) ->
  estimate_password_strength (x ++ a ++ y) s = (Return rxay, s2) ->
  score ra <= score rxay
  /\ forall k, report_has ra k = true -> report_has rxay k = true.
Proof.
  intros Ha Hxay.
  destruct (estimate_password_strength_Return _ _ _ _ Ha)
    as (_ & _ & Hfa & Hsa & _).
  destruct (estimate_password_strength_Return _ _ _ _ Hxay)
    as (_ & _ & Hfx & Hsx & _).
  assert (forall k, has_class a k = true -> has_class (x ++ a ++ y) k = true)
    as Hmono.
  { intros k Hk. unfold has_class in *.
    rewrite !any_of_append, Hk. now rewrite orb_true_r. }
  split.
  - rewrite Hsa, Hsx, (classes_present_has _ _ Hfa),
            (classes_present_has _ _ Hfx).
    assert (len a <= len (x ++ a ++ y)) as Hlen
      by (unfold len; rewrite !length_append; lia).
    pose proof (Hmono Lowercase) as Hl. pose proof (Hmono Uppercase) as Hu.
    pose proof (Hmono Digits) as Hd. pose proof (Hmono Symbols) as Hs.
    destruct (has_class a Lowercase), (has_class a Uppercase),
             (has_class a Digits), (has_class a Symbols);
      repeat match goal with
             | H : true = true -> _ |- _ => rewrite (H eq_refl)
             end;
      destruct (has_class (x ++ a ++ y) Lowercase),
               (has_class (x ++ a ++ y) Uppercase),
               (has_class (x ++ a ++ y) Digits),
               (has_class (x ++ a ++ y) Symbols);
      cbn [Z.b2z]; lia.
  - intros k. rewrite Hfa, Hfx. apply Hmono.
Qed.

Lemma estimate_password_strength_monotone_witness :
  estimate_password_strength "abc" all_zero
  = (Return (mkReport 27 "Weak" 3 true false false false), all_zero)
  /\ estimate_password_strength ("X" ++ "abc" ++ "9") all_zero
     = (Return (mkReport 65 "Strong" 5 true true true false), all_zero)
  /\ 27 <= 65.
Proof.
  assert (estimate_password_strength "abc" all_zero
          = (Return (mkReport 27 "Weak" 3 true false false false), all_zero))
    as Ha by reflexivity.
  assert (estimate_password_strength ("X" ++ "abc" ++ "9") all_zero
          = (Return (mkReport 65 "Strong" 5 true true true false), all_zero))
    as Hxay by reflexivity.
  split; [exact Ha|]. split; [exact Hxay|].
  exact (proj1 (estimate_password_strength_monotone _ _ _ _ _ _ _ _ Ha Hxay)).
Defined.

Lemma any_of_existsb (f : ascii -> bool) (s : string) :
  any_of f s = existsb f (list_ascii_of_string s).
Proof.
  induction s as [|c s IH]; simpl; congruence.
Qed.

Lemma existsb_Permutation {A} (f : A -> bool) (l l' : list A) :
  Permutation l l' -> existsb f l = existsb f l'.
Proof.
  induction 1 as [|x l l' _ IH | x y l | l l' l'' _ IH1 _ IH2]; simpl.
  - reflexivity.
  - now rewrite IH.
  - now rewrite !orb_assoc, (orb_comm (f y)).
  - congruence.
Qed.

Lemma length_chars (s : string) :
  List.length (list_ascii_of_string s) = String.length s.
Proof.
  induction s as [|c s IH]; simpl; congruence.
Qed.

(** X20: the report depends only on which characters the string has and how
    often, not on their order: two strings that are rearrangements of each
    other get the same report. *)
Theorem estimate_password_strength_rearranged (a b : string) (s : rng) :
  Permutation (list_ascii_of_string a) (list_ascii_of_string b) ->
  estimate_password_strength a s = estimate_password_strength b s.
Proof.
  intros Hperm. unfold estimate_password_strength.
  assert (len a = len b) as ->.
  { unfold len. rewrite <- !length_chars.
    now rewrite (Permutation_length Hperm). }
  rewrite !any_of_existsb.
  now rewrite !(existsb_Permutation _ _ _ Hperm).
Qed.

Lemma estimate_password_strength_rearranged_witness :
  Permutation (list_ascii_of_string "ab1") (list_ascii_of_string "1ba")
  /\ estimate_password_strength "ab1" all_zero
     = estimate_password_strength "1ba" all_zero.
Proof.
  assert (Permutation (list_ascii_of_string "ab1")
                      (list_ascii_of_string "1ba")) as Hperm.
  { simpl. apply Permutation_sym.
    apply (Permutation_cons_app ["a"; "b"]%char []%list "1"%char).
    simpl. apply perm_swap. }
  split; [exact Hperm|].
  exact (estimate_password_strength_rearranged "ab1" "1ba" all_zero Hperm).
Defined.

Lemma classes_present_range (rep : StrengthReport) :
  0 <= classes_present rep <= 4.
Proof.
  unfold classes_present.
  destruct (has_lowercase rep), (has_uppercase rep), (has_digits rep),
           (has_symbols rep); cbn [Z.b2z]; lia.
Qed.

(** X21: a string is rated [Very Strong] exactly when it has characters of
    all four classes and at least 5 characters, or of three classes and at
    least 9 characters; so no string of one or two classes is ever
    [Very Strong], however long. The score is 100 exactly when all four
    classes are present and the string has at least 10 characters. *)
Theorem estimate_password_strength_very_strong
    (password : string) (s s' : rng) (rep : StrengthReport) :
  estimate_password_strength password s = (Return rep, s') ->
  (strength rep = "Very Strong" <->
   (classes_present rep = 4 /\ 5 <= len password)
   \/ (classes_present rep = 3 /\ 9 <= len password))
  /\ (score rep = 100 <->
      classes_present rep = 4 /\ 10 <= len password).
Proof.
  intros Hrun.
  destruct (estimate_password_strength_Return _ _ _ _ Hrun)
    as (_ & _ & _ & Hscore & Hstrength).
  pose proof (classes_present_range rep) as Hk.
  assert (0 <= len password) as Hlen by (unfold len; lia).
  split; [|lia].
  rewrite Hstrength.
  repeat match goal with
         | |- context [?x >=? ?y] =>
             rewrite (Z.geb_leb x y); destruct (Z.leb_spec y x)
         end;
    (split; [intros E; try discriminate E | intros E]);
    try reflexivity; try lia; exfalso; lia.
Qed.

Lemma estimate_password_strength_very_strong_witness :
  estimate_password_strength "aA1!x" all_zero
  = (Return (mkReport 80 "Very Strong" 5 true true true true), all_zero)
  /\ ("Very Strong" = "Very Strong" <->
      (4 = 4 /\ 5 <= len "aA1!x") \/ (4 = 3 /\ 9 <= len "aA1!x")).
Proof.
  assert (estimate_password_strength "aA1!x" all_zero
          = (Return (mkReport 80 "Very Strong" 5 true true true true),
             all_zero)) as Hrun by reflexivity.
  split; [exact Hrun|].
  exact (proj1 (estimate_password_strength_very_strong _ _ _ _ Hrun)).
Defined.

(** ** Estimating a generated password *)

Lemma generated_has_class
    (r : request) (s s' : rng) (password : string) (k : CharacterClass) :
  valid_request r ->
  generate_password r s = (Return password, s') ->
  has_class password k = enabled r k.
Proof.
  intros Hvalid Hrun.
  destruct (generate_password_Return r s s' password Hvalid Hrun)
    as (_ & _ & Hm & Hpool).
  destruct (enabled r k) eqn:Ek; [now apply (meets_enabled r)|].
  destruct (has_class password k) eqn:Hk; [|reflexivity].
  apply has_class_exists in Hk. destruct Hk as (c & Hc & Hck).
  specialize (Hpool c Hc). rewrite pool_of_in_pool in Hpool.
  apply in_pool_iff in Hpool. destruct Hpool as [(j & Hj & Hcj) _].
  rewrite (character_sets_disjoint j k c Hcj Hck) in Hj. congruence.
Qed.

(** X22: the report of a password returned on a valid request is fixed by
    the request: its flags are the enabled classes, its length the requested
    one, its score [min(4 * length, 40)] plus 15 for each enabled class; with
    all four classes enabled the password is rated [Very Strong]. *)
Theorem generate_password_then_estimate
    (r : request) (s s1 s2 : rng) (password : string) (rep : StrengthReport) :
  valid_request r ->
  generate_password r s = (Return password, s1) ->
  estimate_password_strength password s1 = (Return rep, s2) ->
  s2 = s1
  /\ report_length rep = length r
  /\ (forall k, report_has rep k = enabled r k)
  /\ score rep = Z.min (length r * 4) 40 + 15 * enabled_count r
  /\ (enabled_count r = 4 -> strength rep = "Very Strong").
Proof.
  intros Hvalid Hgen Hest.
  destruct (estimate_password_strength_Return _ _ _ _ Hest)
    as (Hs & Hlen & Hflags & Hscore & Hstrength).
  assert (len password = length r) as El.
  { destruct (generate_password_Return r s s1 password Hvalid Hgen)
      as (_ & Hn & _). unfold len, range_len in *. rewrite Hn.
    destruct Hvalid as [[Hlo _] _]. lia. }
  assert (forall k, report_has rep k = enabled r k) as Hen
    by (intros k; rewrite Hflags; eapply generated_has_class; eassumption).
  assert (classes_present rep = enabled_count r) as Ec.
  { pose proof (Hen Lowercase) as Hl. pose proof (Hen Uppercase) as Hu.
    pose proof (Hen Digits) as Hd. pose proof (Hen Symbols) as Hy.
    cbn [report_has enabled] in Hl, Hu, Hd, Hy.
    unfold classes_present, enabled_count. now rewrite Hl, Hu, Hd, Hy. }
  rewrite El, Ec in Hscore.
  split; [assumption|]. split; [congruence|]. split; [assumption|].
  split; [assumption|].
  intros H4. rewrite Hstrength.
  destruct (Z.geb_spec (score rep) 80) as [_ | Hlt]; [reflexivity|].
  destruct Hvalid as [[Hlo _] _]. lia.
Qed.

Lemma generate_password_then_estimate_witness :
  valid_request (all_classes 8)
  /\ generate_password (all_classes 8) stride24
     = (Return "aA2;iJ!]", skip 8 stride24)
  /\ estimate_password_strength "aA2;iJ!]" (skip 8 stride24)
     = (Return (mkReport 92 "Very Strong" 8 true true true true),
        skip 8 stride24)
  /\ 92 = Z.min (8 * 4) 40 + 15 * enabled_count (all_classes 8).
Proof.
  assert (valid_request (all_classes 8)) as Hvalid
    by (split; [simpl; lia | now exists Lowercase]).
  assert (generate_password (all_classes 8) stride24
          = (Return "aA2;iJ!]", skip 8 stride24)) as Hgen
    by (vm_compute; reflexivity).
  assert (estimate_password_strength "aA2;iJ!]" (skip 8 stride24)
          = (Return (mkReport 92 "Very Strong" 8 true true true true),
             skip 8 stride24)) as Hest by reflexivity.
  split; [exact Hvalid|]. split; [exact Hgen|]. split; [exact Hest|].
  exact (proj1 (proj2 (proj2 (proj2
           (generate_password_then_estimate _ _ _ _ _ _ Hvalid Hgen Hest))))).
Defined.

(** ** The script *)

Lemma append_assoc (a b c : string) : (a ++ b) ++ c = a ++ (b ++ c).
Proof.
  induction a as [|x a IH]; simpl; congruence.
Qed.

Lemma main_request_valid : valid_request main_request.
Proof.
  split; [simpl; lia | now exists Lowercase].
Qed.

Lemma main_batch_request_valid : valid_request main_batch_request.
Proof.
  split; [simpl; lia | now exists Lowercase].
Qed.

(** The report [main] gets for the password it generated. *)
Lemma main_request_report (password : string) (s s1 : rng) :
  generate_password main_request s = (Return password, s1) ->
  exists rep,
    (forall s', estimate_password_strength password s' = (Return rep, s'))
    /\ strength rep = "Very Strong"
    /\ score rep = 100
    /\ report_length rep = 20.
Proof.
  intros Hgen.
  assert (exists rep, forall s',
            estimate_password_strength password s' = (Return rep, s'))
    as [rep Hrep] by (eexists; intros s'; reflexivity).
  exists rep. split; [assumption|].
  destruct (estimate_password_strength_Return _ _ _ _ (Hrep s))
    as (_ & Hlen & Hflags & Hscore & Hstrength).
  destruct (generate_password_Return _ _ _ _ main_request_valid Hgen)
    as (_ & Hn & _).
  assert (len password = 20) as El
    by (unfold len; rewrite Hn; reflexivity).
  assert (classes_present rep = 4) as Ec.
  { rewrite (classes_present_has _ _ Hflags).
    now rewrite !(generated_has_class _ _ _ _ _ main_request_valid Hgen). }
  rewrite El, Ec in Hscore. change (score rep = 100) in Hscore.
  rewrite Hscore in Hstrength. split; [exact Hstrength|].
  split; [assumption | congruence].
Qed.

(** What [main] does, call by call. *)
Lemma main_steps (w : world) :
  main w
  = match generate_password main_request (random w) with
    | (Raise e, s1) => (Raise e, mkWorld s1 (stdout w))
    | (Return password, s1) =>
        match generate_multiple_passwords 3 main_batch_request s1 with
        | (Raise e, s2) =>
            (Raise e, mkWorld s2 (stdout w ++ main_report password))
        | (Return passwords, s2) =>
            io_for_each (enumerate passwords 1)
              (fun '(i, pwd) => print [str i ++ ". " ++ pwd])
              (mkWorld s2 (stdout w ++ main_report password))
        end
    end.
Proof.
  unfold main. unfold io_bind at 1. unfold call at 1.
  change (mkRequest 20 true true true true true) with main_request.
  destruct (generate_password main_request (random w))
    as [[password | e] s1] eqn:Hgen; [|reflexivity].
  destruct (main_request_report password _ _ Hgen)
    as (rep & Hrep & Hstrength & Hscore & Hlen).
  unfold io_bind at 1. unfold print at 1. cbn [random stdout].
  unfold io_bind at 1. unfold call at 1. cbn [random stdout].
  rewrite Hrep, Hstrength, Hscore, Hlen.
  unfold io_bind at 1. unfold print at 1. cbn [random stdout].
  unfold io_bind at 1. unfold print at 1. cbn [random stdout].
  unfold io_bind at 1. unfold print at 1. cbn [random stdout].
  unfold io_bind at 1. unfold call at 1. cbn [random stdout].
  change (mkRequest 12 true true true false (exclude_similar default_request))
    with main_batch_request.
  assert (forall out,
            ((((out ++ String.concat " " ["Generated Password:"; password]
                ++ newline)
               ++ String.concat " "
                    [newline ++ "Password Strength: " ++ "Very Strong"
                     ++ " (" ++ str 100 ++ "/100)"] ++ newline)
              ++ String.concat " " ["Length: " ++ str 20 ++ " characters"]
              ++ newline)
             ++ String.concat " " [newline ++ "Multiple passwords:"]
             ++ newline)
            = out ++ main_report password) as ->.
  { intros out. unfold main_report. rewrite !append_assoc.
    cbn [String.concat]. rewrite !append_assoc. reflexivity. }
  destruct (generate_multiple_passwords 3 main_batch_request s1)
    as [[passwords | e] s2]; reflexivity.
Qed.

Lemma generate_multiple_passwords_unfold
    (count : Z) (r : request) (s : rng) :
  generate_multiple_passwords count r s
  = comprehension (Z.to_nat count) (generate_password r) s.
Proof.
  reflexivity.
Qed.

Lemma main_batch_Return (s1 s2 : rng) (passwords : list string) :
  generate_multiple_passwords 3 main_batch_request s1
  = (Return passwords, s2) ->
  exists p1 p2 p3, passwords = [p1; p2; p3] /\ s2 = skip 36 s1.
Proof.
  intros Hrun. rewrite generate_multiple_passwords_unfold in Hrun.
  destruct (proj1 (comprehension_generate_password
                     main_batch_request main_batch_request_valid
                     (Z.to_nat 3) s1 s2 passwords) Hrun) as (Hlen & Hs & _).
  change (Z.to_nat 3) with 3%nat in Hlen.
  change (Z.to_nat 3 * range_len (length main_batch_request))%nat
    with 36%nat in Hs.
  destruct passwords as [|p1 [|p2 [|p3 [|p4 rest]]]]; try discriminate.
  exists p1, p2, p3. split; [reflexivity | exact Hs].
Qed.

(** X23: when [main] completes it has made two calls that returned, one
    for a password of 20 characters and one for a batch of three of 12, in
    56 draws, and has written the password, the strength line, which is
    always [Very Strong (100/100)], the length line, which is always 20, and
    the three numbered passwords. *)
Theorem main_completes (w w' : world) :
  main w = (Return tt, w') ->
  exists password p1 p2 p3,
    generate_password main_request (random w)
    = (Return password, skip 20 (random w))
    /\ generate_multiple_passwords 3 main_batch_request (skip 20 (random w))
       = (Return [p1; p2; p3], skip 56 (random w))
    /\ w' = mkWorld (skip 56 (random w))
                    (stdout w ++ main_report password ++ main_batch p1 p2 p3).
Proof.
  rewrite main_steps. intros Hrun.
  destruct (generate_password main_request (random w))
    as [[password | e] s1] eqn:Hgen; [|discriminate].
  destruct (generate_password_Return _ _ _ _ main_request_valid Hgen)
    as (-> & _).
  change (range_len (length main_request)) with 20%nat in *.
  destruct (generate_multiple_passwords 3 main_batch_request
              (skip 20 (random w)))
    as [[passwords | e] s2] eqn:Hbatch; [|discriminate].
  destruct (main_batch_Return _ _ _ Hbatch) as (p1 & p2 & p3 & -> & ->).
  rewrite skip_skip in *. change (20 + 36)%nat with 56%nat in *.
  exists password, p1, p2, p3. split; [reflexivity|].
  split; [reflexivity|].
  cbn [enumerate io_for_each] in Hrun. unfold io_bind, print, io_ret in Hrun.
  cbn [random stdout] in Hrun. injection Hrun as <-.
  f_equal. unfold main_batch. cbn [String.concat].
  change (str 1) with "1". change (str (1 + 1)) with "2".
  change (str (1 + 1 + 1)) with "3".
  rewrite !append_assoc. cbn [String.append].
  rewrite !append_assoc. cbn [String.append]. reflexivity.
Qed.

Lemma main_completes_witness :
  main (mkWorld stride24 "")
  = (Return tt,
     mkWorld (skip 56 stride24)
       ("" ++ main_report "aA2;iJ!]sS)aA2;iJ!]s"
        ++ main_batch "JaA2sSiJaA2s" "SiJaA2sSiJaA" "2sSiJaA2sSiJ"))
  /\ exists password p1 p2 p3,
       generate_password main_request stride24
       = (Return password, skip 20 stride24)
       /\ generate_multiple_passwords 3 main_batch_request (skip 20 stride24)
          = (Return [p1; p2; p3], skip 56 stride24)
       /\ mkWorld (skip 56 stride24)
            ("" ++ main_report "aA2;iJ!]sS)aA2;iJ!]s"
             ++ main_batch "JaA2sSiJaA2s" "SiJaA2sSiJaA" "2sSiJaA2sSiJ")
          = mkWorld (skip 56 stride24)
              ("" ++ main_report password ++ main_batch p1 p2 p3).
Proof.
  assert (main (mkWorld stride24 "")
          = (Return tt,
             mkWorld (skip 56 stride24)
               ("" ++ main_report "aA2;iJ!]sS)aA2;iJ!]s"
                ++ main_batch "JaA2sSiJaA2s" "SiJaA2sSiJaA" "2sSiJaA2sSiJ")))
    as Hrun by (vm_compute; reflexivity).
  split; [exact Hrun|].
  exact (main_completes _ _ Hrun).
Defined.

(** X24: [main] never fails with [ValueError] or [IndexError], but it can
    fail with the [RuntimeError] of one of its two calls: of the first,
    before anything is written, or of the batch, after the password and its
    strength have been written and before any password of the batch is. *)
Theorem main_failure (w w' : world) (e : exn) :
  main w = (Raise e, w') ->
  (exists msg, e = RuntimeError msg)
  /\ (stdout w' = stdout w
      \/ exists password, stdout w' = stdout w ++ main_report password).
Proof.
  rewrite main_steps. intros Hrun.
  destruct (generate_password_valid main_request (random w)
              main_request_valid)
    as (pw & _ & _ & _ & [[_ E] | [_ [name E]]]); rewrite E in Hrun.
  - destruct (generate_multiple_passwords 3 main_batch_request
                (skip (range_len (length main_request)) (random w)))
      as [[passwords | e'] s2] eqn:Hbatch.
    + exfalso.
      destruct (main_batch_Return _ _ _ Hbatch) as (p1 & p2 & p3 & -> & _).
      cbn [enumerate io_for_each] in Hrun.
      unfold io_bind, print, io_ret in Hrun. discriminate.
    + injection Hrun as <- <-.
      rewrite generate_multiple_passwords_unfold in Hbatch.
      destruct (comprehension_generate_password_Raise _
                  main_batch_request_valid _ _ _ _ Hbatch) as [Hmsg _].
      split; [assumption|]. right. now exists pw.
  - injection Hrun as <- <-. split; [eexists; reflexivity | now left].
Qed.

Lemma main_failure_witness :
  main (mkWorld all_zero "")
  = (Raise (RuntimeError
       "Failed to generate password with uppercase characters"),
     mkWorld (skip 20 all_zero) "")
  /\ (exists msg,
        RuntimeError "Failed to generate password with uppercase characters"
        = RuntimeError msg).
Proof.
  assert (main (mkWorld all_zero "")
          = (Raise (RuntimeError
               "Failed to generate password with uppercase characters"),
             mkWorld (skip 20 all_zero) "")) as Hrun
    by (vm_compute; reflexivity).
  split; [exact Hrun|].
  exact (proj1 (main_failure _ _ _ Hrun)).
Defined.
